(** * Annotation conversion pipeline: dataturks JSON -> PASCAL VOC XML -> feature records

    A shallow embedding of the two converters of the repository,

    - [dataturks_to_PascalVOC_achbogga.py]
      ([get_xml_for_bbx], [convert_to_PascalVOC], [main]), and
    - [create_tf_records_from_pascal_voc_annotations_achbogga.py]
      ([dict_to_tf_example], [main]),

    together with the properties stated about them in the specification.

    Modelling conventions.

    - Python exceptions are values of [exn]; a computation that may raise
      has type [result A] and is sequenced with stdpp's [x ← e; k] notation.
    - A value produced by [json.loads] is a [json] tree.  Python [bool] is a
      subclass of [int], so a JSON boolean is a number.
    - A Python [int] is a [Z].  A Python [float] is idealised as the exact
      rational it denotes ([Q]): rounding to binary64, infinities and NaN
      are not modelled.
    - Functions of the Python runtime and of third-party libraries whose
      text is not part of the repository ([str] and [float] on floats,
      [int] on strings, [json.loads], [hashlib.sha256], [PIL.Image.open],
      [lxml.etree.fromstring]) are the fields of the class [Runtime]; the
      development is parametric in them.  The module [Example] gives one
      runtime, on which the converters are evaluated.
    - An XML document is the tree of [element]s that [lxml] makes of it,
      and [render] is its text.  The text [convert_to_PascalVOC] builds by
      concatenation is proved to be [render] of a tree; that
      [etree.fromstring] gives this tree back is a hypothesis where it is
      used (it holds of [lxml] when labels and file names contain no markup
      characters, which the converter does not escape).
    - The files are a map from paths to contents; directories, logging and
      the command line are not modelled. *)

From Stdlib Require Import ZArith QArith Qminmax Qround Lqa Lia String Ascii List.
From stdpp Require Import gmap strings list pretty.

Set Warnings "-register-all".

Open Scope Z_scope.
Open Scope string_scope.

(** ** Exceptions and the error monad *)

Inductive exn : Type :=
| KeyError (key : string)
| IndexError
| TypeError
| ValueError (msg : string)
| AttributeError
| ZeroDivisionError
| IOError
| XMLSyntaxError.

Inductive result (A : Type) : Type :=
| Ok (a : A)
| Raise (e : exn).

Arguments Ok {A} a.
Arguments Raise {A} e.

#[global] Instance result_ret : MRet result := fun A a => Ok a.

#[global] Instance result_bind : MBind result := fun A B k m =>
  match m with
  | Ok a => k a
  | Raise e => Raise e
  end.

Definition of_option {A : Type} (o : option A) (e : exn) : result A :=
  match o with
  | Some a => Ok a
  | None => Raise e
  end.

(** ** Numbers *)

Inductive number : Type :=
| Int (z : Z)
| Float (q : Q).

Definition number_value (n : number) : Q :=
  match n with
  | Int z => inject_Z z
  | Float q => q
  end.

(** [a < b] and [a > b] on Python numbers compare the exact values. *)
Definition number_lt (a b : number) : bool :=
  match Qcompare (number_value a) (number_value b) with
  | Lt => true
  | _ => false
  end.

Definition number_gt (a b : number) : bool :=
  match Qcompare (number_value a) (number_value b) with
  | Gt => true
  | _ => false
  end.

(** [a * b]: the product of two [int]s is an [int], any other product is a
    [float]. *)
Definition number_mul (a b : number) : number :=
  match a, b with
  | Int x, Int y => Int (x * y)
  | _, _ => Float (number_value a * number_value b)
  end.

(** [int(x)] truncates towards zero. *)
Definition number_int (n : number) : Z :=
  match n with
  | Int z => z
  | Float q => Z.quot (Qnum q) (Zpos (Qden q))
  end.

(** [min(a, b, c, d)] and [max(a, b, c, d)] as CPython computes them: the
    first argument is the running result, and a later argument replaces it
    when it compares strictly smaller (resp. greater). *)
Definition py_min4 (a b c d : number) : number :=
  let m := a in
  let m := if number_lt b m then b else m in
  let m := if number_lt c m then c else m in
  if number_lt d m then d else m.

Definition py_max4 (a b c d : number) : number :=
  let m := a in
  let m := if number_gt b m then b else m in
  let m := if number_gt c m then c else m in
  if number_gt d m then d else m.

(** ** Strings and paths *)

(** [s.split(sep)[0]] for a non-empty [sep]: the part of [s] before the
    first occurrence of [sep], all of [s] when there is none. *)
Fixpoint split_head (sep s : string) : string :=
  if String.prefix sep s then ""
  else match s with
       | EmptyString => ""
       | String c s' => String c (split_head sep s')
       end.

(** [s.replace(old, '')] for a non-empty [old]: the occurrences of [old] are
    deleted from left to right; [skip] counts the characters of the current
    occurrence that are still to be dropped. *)
Fixpoint delete_occurrences (old s : string) (skip : nat) : string :=
  match s with
  | EmptyString => ""
  | String c s' =>
      match skip with
      | S k => delete_occurrences old s' k
      | O =>
          if String.prefix old s
          then delete_occurrences old s' (String.length old - 1)
          else String c (delete_occurrences old s' 0)
      end
  end.

Definition str_replace_empty (s old : string) : string :=
  delete_occurrences old s 0.

(** [s.split(sep)[-1]] for a one-character [sep]: the part of [s] after the
    last [sep]; [cur] is the component being read. *)
Fixpoint split_last_from (sep : ascii) (s cur : string) : string :=
  match s with
  | EmptyString => cur
  | String c s' =>
      if Ascii.eqb c sep then split_last_from sep s' ""
      else split_last_from sep s' (cur ++ String c "")
  end.

Definition split_last (sep : ascii) (s : string) : string :=
  split_last_from sep s "".

(** The strings of a list, one after the other. *)
Fixpoint cat (l : list string) : string :=
  match l with
  | [] => ""
  | x :: l' => x ++ cat l'
  end.

(** [sub in s] for strings *)
Fixpoint str_contains (sub s : string) : bool :=
  if String.prefix sub s then true
  else match s with
       | EmptyString => false
       | String _ s' => str_contains sub s'
       end.

Definition ends_with_slash (s : string) : bool :=
  match String.get (String.length s - 1) s with
  | Some c => Ascii.eqb c "/"
  | None => false
  end.

(** [os.path.join(a, b)] (posix) *)
Definition path_join (a b : string) : string :=
  if String.prefix "/" b then b
  else if String.eqb a "" || ends_with_slash a then a ++ b
  else a ++ "/" ++ b.

(** ** JSON values *)

Inductive json : Type :=
| JNull
| JBool (b : bool)
| JInt (z : Z)
| JFloat (q : Q)
| JStr (s : string)
| JList (l : list json)
| JDict (d : list (string * json)).

(** Lookup in the item list of a dict ([json.loads] leaves one entry per
    key). *)
Fixpoint assoc {A : Type} (k : string) (d : list (string * A)) : option A :=
  match d with
  | [] => None
  | (k', v) :: d' => if String.eqb k k' then Some v else assoc k d'
  end.

(** [v[k]] for a string key [k]. *)
Definition getitem (v : json) (k : string) : result json :=
  match v with
  | JDict d => of_option (assoc k d) (KeyError k)
  | _ => Raise TypeError
  end.

(** [v[i]] for an index [i >= 0].  Indexing a [str] gives the one-character
    string at that position; a dict from [json.loads] has string keys only,
    so an integer key is missing. *)
Definition getindex (v : json) (i : nat) : result json :=
  match v with
  | JList l => of_option (nth_error l i) IndexError
  | JStr s =>
      match String.get i s with
      | Some c => Ok (JStr (String c EmptyString))
      | None => Raise IndexError
      end
  | JDict _ => Raise (KeyError (pretty (Z.of_nat i)))
  | _ => Raise TypeError
  end.

(** [len(v)] *)
Definition py_len (v : json) : result nat :=
  match v with
  | JList l => Ok (List.length l)
  | JStr s => Ok (String.length s)
  | JDict d => Ok (List.length d)
  | _ => Raise TypeError
  end.

(** Truth value of a JSON value ([not v] is its negation). *)
Definition truthy (v : json) : bool :=
  match v with
  | JNull => false
  | JBool b => b
  | JInt z => negb (z =? 0)%Z
  | JFloat q => negb (Qeq_bool q 0)
  | JStr s => negb (String.eqb s "")
  | JList l => match l with [] => false | _ => true end
  | JDict d => match d with [] => false | _ => true end
  end.

(** ["<tag>" + s] needs [s] to be a [str]. *)
Definition as_str (v : json) : result string :=
  match v with
  | JStr s => Ok s
  | _ => Raise TypeError
  end.

(** [for x in v] *)
Definition py_iter (v : json) : result (list json) :=
  match v with
  | JList l => Ok l
  | JStr s => Ok (map (fun c => JStr (String c "")) (list_ascii_of_string s))
  | JDict d => Ok (map (fun kv => JStr (fst kv)) d)
  | _ => Raise TypeError
  end.

(** ["shape" in v] *)
Definition py_contains_str (k : string) (v : json) : result bool :=
  match v with
  | JDict d => Ok (match assoc k d with Some _ => true | None => false end)
  | JList l =>
      Ok (existsb (fun x => match x with JStr s => String.eqb s k | _ => false end) l)
  | JStr s => Ok (str_contains k s)
  | _ => Raise TypeError
  end.

(** [v != "s"] *)
Definition differs_from_str (v : json) (s : string) : bool :=
  match v with
  | JStr s' => negb (String.eqb s' s)
  | _ => true
  end.

(** [image_url.split(..)], [image_url.replace(..)]: only a [str] has these
    methods. *)
Definition as_str_method (v : json) : result string :=
  match v with
  | JStr s => Ok s
  | _ => Raise AttributeError
  end.

(** A coordinate taken from the JSON.  Arithmetic and ordering are modelled
    on numbers; Python 3 raises [TypeError] when [None] or a dict is
    multiplied or compared.  (Strings and lists as coordinates, which Python
    can repeat and compare, are outside the model and raise here too.) *)
Definition as_number (v : json) : result number :=
  match v with
  | JBool b => Ok (Int (if b then 1 else 0))
  | JInt z => Ok (Int z)
  | JFloat q => Ok (Float q)
  | _ => Raise TypeError
  end.

(** ** XML elements *)

(** An element as [lxml.etree] presents it: its tag, the text before its
    first child, its children, and the text that follows its end tag.  The
    empty string stands for a [text] that is [None]. *)
Inductive element : Type :=
| Element (tag : string) (text : string) (children : list element) (tail : string).

Definition tag (e : element) : string :=
  match e with Element t _ _ _ => t end.

Definition text (e : element) : string :=
  match e with Element _ x _ _ => x end.

Definition children (e : element) : list element :=
  match e with Element _ _ cs _ => cs end.


(** ** The Python runtime and the libraries *)

(** What PIL finds in the bytes of an image file: its format and its
    [(width, height)]. *)
Record image : Type := Image {
  format : string;
  size : Z * Z
}.

Class Runtime : Type := {
  (** [str(x)] for a float [x] *)
  repr_float : Q -> string;
  (** [float(s)] for a string [s]; [None] stands for [ValueError] *)
  py_float : string -> option Q;
  (** [int(s)] for a string [s]; [None] stands for [ValueError] *)
  py_int : string -> option Z;
  (** [json.loads(s)]; [None] stands for [JSONDecodeError] *)
  json_loads : string -> option json;
  (** [hashlib.sha256(b).hexdigest()] *)
  sha256_hexdigest : string -> string;
  (** [PIL.Image.open] on the bytes of a file; [None] when it raises *)
  image_open : string -> option image;
  (** [lxml.etree.fromstring(s)]; [None] stands for [XMLSyntaxError] *)
  etree_fromstring : string -> option element
}.

(** [str(n)] *)
Definition py_str `{Runtime} (n : number) : string :=
  match n with
  | Int z => pretty z
  | Float q => repr_float q
  end.

(** ** Files *)

(** The files are a map from paths to contents.  [can_create p] tells
    whether [open(p, 'w')] succeeds. *)
Record filesystem : Type := Filesystem {
  contents : gmap string string;
  can_create : string -> bool
}.

Definition fs_read (fs : filesystem) (path : string) : result string :=
  of_option (contents fs !! path) IOError.

Definition fs_write (fs : filesystem) (path data : string) : result filesystem :=
  if can_create fs path
  then Ok (Filesystem (<[path := data]> (contents fs)) (can_create fs))
  else Raise IOError.

(** The characters written [\t] and [\n] in the sources. *)
Definition TAB : string := String (ascii_of_nat 9) EmptyString.
Definition NL : string := String (ascii_of_nat 10) EmptyString.

(** * dataturks_to_PascalVOC_achbogga.py *)

Module Dataturks.

(** ** [get_xml_for_bbx] *)

Record box : Type := Box {
  xmin : number;
  ymin : number;
  xmax : number;
  ymax : number
}.

(** [bbx_data['points'][i][j]] as a number *)
Definition point_coord (bbx_data : json) (i j : nat) : result number :=
  points ← getitem bbx_data "points";
  p ← getindex points i;
  c ← getindex p j;
  as_number c.

(** [bbx_data['points'][i][k]] as a number *)
Definition point_field (bbx_data : json) (i : nat) (k : string) : result number :=
  points ← getitem bbx_data "points";
  p ← getindex points i;
  c ← getitem p k;
  as_number c.

(** The first half of [get_xml_for_bbx]: the extents [xmin], [ymin], [xmax],
    [ymax] of the box. *)
Definition bbx_extents (bbx_data : json) (width height : Z) : result box :=
  points ← getitem bbx_data "points";
  n ← py_len points;
  if (n =? 4)%nat then
    x0 ← point_coord bbx_data 0 0;
    x1 ← point_coord bbx_data 1 0;
    x2 ← point_coord bbx_data 2 0;
    x3 ← point_coord bbx_data 3 0;
    let xmin := number_mul (Int width) (py_min4 x0 x1 x2 x3) in
    y0 ← point_coord bbx_data 0 1;
    y1 ← point_coord bbx_data 1 1;
    y2 ← point_coord bbx_data 2 1;
    y3 ← point_coord bbx_data 3 1;
    let ymin := number_mul (Int height) (py_min4 y0 y1 y2 y3) in
    let xmax := number_mul (Int width) (py_max4 x0 x1 x2 x3) in
    let ymax := number_mul (Int height) (py_max4 y0 y1 y2 y3) in
    Ok (Box xmin ymin xmax ymax)
  else
    x0 ← point_field bbx_data 0 "x";
    let xmin := Int (number_int (number_mul x0 (Int width))) in
    y0 ← point_field bbx_data 0 "y";
    let ymin := Int (number_int (number_mul y0 (Int height))) in
    x1 ← point_field bbx_data 1 "x";
    let xmax := Int (number_int (number_mul x1 (Int width))) in
    y1 ← point_field bbx_data 1 "y";
    let ymax := Int (number_int (number_mul y1 (Int height))) in
    Ok (Box xmin ymin xmax ymax).

(** The second half of [get_xml_for_bbx]: the text of the [<object>]
    block. *)
Definition object_xml `{Runtime} (bbx_label : string) (b : box) : string :=
  let xml := "<object>" ++ NL in
  let xml := xml ++ TAB ++ "<name>" ++ bbx_label ++ "</name>" ++ NL in
  let xml := xml ++ TAB ++ "<pose>Unspecified</pose>" ++ NL in
  let xml := xml ++ TAB ++ "<truncated>Unspecified</truncated>" ++ NL in
  let xml := xml ++ TAB ++ "<difficult>Unspecified</difficult>" ++ NL in
  let xml := xml ++ TAB ++ "<occluded>Unspecified</occluded>" ++ NL in
  let xml := xml ++ TAB ++ "<bndbox>" ++ NL in
  let xml := xml ++ TAB ++ TAB ++ "<xmin>" ++ py_str (xmin b) ++ "</xmin>" ++ NL in
  let xml := xml ++ TAB ++ TAB ++ "<xmax>" ++ py_str (xmax b) ++ "</xmax>" ++ NL in
  let xml := xml ++ TAB ++ TAB ++ "<ymin>" ++ py_str (ymin b) ++ "</ymin>" ++ NL in
  let xml := xml ++ TAB ++ TAB ++ "<ymax>" ++ py_str (ymax b) ++ "</ymax>" ++ NL in
  let xml := xml ++ TAB ++ "</bndbox>" ++ NL in
  let xml := xml ++ "</object>" ++ NL in
  xml.

Definition get_xml_for_bbx `{Runtime} (bbx_label : json) (bbx_data : json)
    (width height : Z) : result string :=
  b ← bbx_extents bbx_data width height;
  label ← as_str bbx_label;
  Ok (object_xml label b).

(** ** [convert_to_PascalVOC] *)

(** The inner loop [for bbx_label in bbx_labels: xml = xml + get_xml_for_bbx(..)] *)
Fixpoint labels_loop `{Runtime} (bbx_labels : list json) (bbx : json)
    (width height : Z) (xml : string) : result string :=
  match bbx_labels with
  | [] => Ok xml
  | bbx_label :: rest =>
      o ← get_xml_for_bbx bbx_label bbx width height;
      labels_loop rest bbx width height (xml ++ o)
  end.

(** The body of the loop [for bbx in data['annotation']]; [continue] leaves
    [xml] as it is. *)
Definition bbx_step `{Runtime} (bbx : json) (width height : Z) (xml : string)
    : result string :=
  if negb (truthy bbx) then Ok xml
  else
    has_shape ← py_contains_str "shape" bbx;
    not_rectangle ←
      (if has_shape : bool
       then shape ← getitem bbx "shape"; Ok (differs_from_str shape "rectangle")
       else Ok false);
    if not_rectangle : bool then Ok xml
    else
      bbx_labels ← getitem bbx "label";
      let bbx_labels :=
        match bbx_labels with
        | JList l => l
        | v => [v]
        end in
      labels_loop bbx_labels bbx width height xml.

Fixpoint annotation_loop `{Runtime} (annotation : list json) (width height : Z)
    (xml : string) : result string :=
  match annotation with
  | [] => Ok xml
  | bbx :: rest =>
      xml ← bbx_step bbx width height xml;
      annotation_loop rest width height xml
  end.

(** The text before the first [<object>] block. *)
Definition annotation_header (image_dir_folder_Name fileName filePath : string)
    (width height : Z) : string :=
  let xml := "<annotation>" ++ NL ++ "<folder>" ++ image_dir_folder_Name
             ++ "</folder>" ++ NL in
  let xml := xml ++ "<filename>" ++ fileName ++ "</filename>" ++ NL in
  let xml := xml ++ "<path>" ++ filePath ++ "</path>" ++ NL in
  let xml := xml ++ "<source>" ++ NL ++ TAB ++ "<database>Unknown</database>"
             ++ NL ++ "</source>" ++ NL in
  let xml := xml ++ "<size>" ++ NL in
  let xml := xml ++ TAB ++ "<width>" ++ pretty width ++ "</width>" ++ NL in
  let xml := xml ++ TAB ++ "<height>" ++ pretty height ++ "</height>" ++ NL in
  let xml := xml ++ TAB ++ "<depth>Unspecified</depth>" ++ NL in
  let xml := xml ++ "</size>" ++ NL in
  let xml := xml ++ "<segmented>Unspecified</segmented>" ++ NL in
  xml.

(** What the [try] block of [convert_to_PascalVOC] does: [Ok (false, fs)] is
    the early [return False] of a skipped item, [Ok (true, fs')] the
    [return True] after the file is written, [Raise e] an exception. *)
Definition convert_try `{Runtime} (fs : filesystem)
    (dataturks_labeled_item image_dir xml_out_dir : string)
    : result (bool * filesystem) :=
  data ← of_option (json_loads dataturks_labeled_item) (ValueError "JSONDecodeError");
  annotation ← getitem data "annotation";
  n ← py_len annotation;
  if (n =? 0)%nat then Ok (false, fs)
  else
    first ← getindex annotation 0;
    _ ← getitem first "imageWidth";
    _ ← getitem first "imageHeight";
    image_url ← getitem data "content";
    image_url ← as_str_method image_url;
    let image_url_new :=
      str_replace_empty image_url (split_head "___Total_" image_url ++ "___Total_") in
    let filePath := image_dir ++ "/" ++ image_url_new in
    bytes ← fs_read fs filePath;
    img ← of_option (image_open bytes) IOError;
    let '(width, height) := size img in
    let fileName := split_last "/" filePath in
    let image_dir_folder_Name := split_last "/" image_dir in
    let xml := annotation_header image_dir_folder_Name fileName filePath width height in
    bbxs ← py_iter annotation;
    xml ← annotation_loop bbxs width height xml;
    let xml := xml ++ "</annotation>" in
    let xmlFilePath := path_join xml_out_dir (fileName ++ ".xml") in
    fs' ← fs_write fs xmlFilePath xml;
    Ok (true, fs').

(** [convert_to_PascalVOC]: any exception of the [try] block is logged and
    turned into [return False]. *)
Definition convert_to_PascalVOC `{Runtime} (fs : filesystem)
    (dataturks_labeled_item image_dir xml_out_dir : string) : bool * filesystem :=
  match convert_try fs dataturks_labeled_item image_dir xml_out_dir with
  | Ok r => r
  | Raise _ => (false, fs)
  end.

(** ** [main] *)

(** [random.sample(population, k)].  The choice among the samples is the
    generator's: [choose population k] is the list it returns in this run.
    The call raises [ValueError] when [k] is negative or exceeds the size of
    the population. *)
Definition random_sample (choose : list nat -> nat -> list nat)
    (population : list nat) (k : Z) : result (list nat) :=
  if (k <? 0)%Z || (Z.of_nat (List.length population) <? k)%Z
  then Raise (ValueError "Sample larger than population or is negative")
  else Ok (choose population (Z.to_nat k)).

(** What the documentation of [random.sample] promises of the returned
    list: [k] unique elements chosen from the population. *)
Definition is_sample (population : list nat) (k : nat) (s : list nat) : Prop :=
  List.length s = k /\ List.NoDup s /\ (forall i, In i s -> In i population).

(** [list(random.sample(range(len(lines)), int(len(lines) * validation_split)))] *)
Definition draw_validation_indices (choose : list nat -> nat -> list nat)
    (n : nat) (validation_split : Q) : result (list nat) :=
  random_sample choose (seq 0 n)
    (number_int (number_mul (Int (Z.of_nat n)) (Float validation_split))).

(** [idx not in validation_indices] *)
Definition not_in (idx : nat) (validation_indices : list nat) : bool :=
  negb (existsb (Nat.eqb idx) validation_indices).

(** The directory an item is written to. *)
Definition out_dir (validation_indices : list nat) (idx : nat)
    (pascal_voc_xml_train_dir pascal_voc_xml_validation_dir : string) : string :=
  if not_in idx validation_indices
  then pascal_voc_xml_train_dir
  else pascal_voc_xml_validation_dir.

(** The loop [for idx, line in enumerate(lines)] with its counter
    [success]. *)
Fixpoint main_loop `{Runtime} (lines : list string) (idx : nat)
    (validation_indices : list nat)
    (image_download_dir pascal_voc_xml_train_dir pascal_voc_xml_validation_dir : string)
    (fs : filesystem) (success : nat) : nat * filesystem :=
  match lines with
  | [] => (success, fs)
  | line :: rest =>
      let '(status, fs) :=
        convert_to_PascalVOC fs line image_download_dir
          (out_dir validation_indices idx
             pascal_voc_xml_train_dir pascal_voc_xml_validation_dir) in
      let success := if status then (success + 1)%nat else success in
      main_loop rest (S idx) validation_indices
        image_download_dir pascal_voc_xml_train_dir pascal_voc_xml_validation_dir
        fs success
  end.

(** The two numbers of the closing log line: the items done, and the items
    "ignored due to errors or for being skipped items". *)
Record summary : Type := Summary {
  items_done : nat;
  items_ignored : nat
}.

(** [main], from the point where [lines] has been read.  [None] is the
    early [return] on an empty file. *)
Definition main `{Runtime} (choose : list nat -> nat -> list nat)
    (lines : list string)
    (image_download_dir pascal_voc_xml_train_dir pascal_voc_xml_validation_dir : string)
    (validation_split : Q) (fs : filesystem)
    : result (option summary * filesystem) :=
  match lines with
  | [] => Ok (None, fs)
  | _ =>
      validation_indices ←
        draw_validation_indices choose (List.length lines) validation_split;
      let '(success, fs) :=
        main_loop lines 0 validation_indices
          image_download_dir pascal_voc_xml_train_dir pascal_voc_xml_validation_dir
          fs 0 in
      Ok (Some (Summary success (List.length lines - success)), fs)
  end.

End Dataturks.

(** * create_tf_records_from_pascal_voc_annotations_achbogga.py *)

Module TfRecords.

(** ** [dataset_util.recursive_parse_xml_to_dict]

    The function belongs to the object detection library; this is its
    behaviour on an [lxml] element.  An element without children becomes its
    text; otherwise its children are entered in a dict under their tags, a
    later child replacing an earlier one of the same tag, except for
    [object] children, which are collected in a list. *)

(** [result[k] = v] *)
Fixpoint dict_set (result : list (string * json)) (k : string) (v : json)
    : list (string * json) :=
  match result with
  | [] => [(k, v)]
  | (k', v') :: rest =>
      if String.eqb k k' then (k, v) :: rest else (k', v') :: dict_set rest k v
  end.

Definition add_child (result : list (string * json)) (child : string * json)
    : list (string * json) :=
  let '(child_tag, child_value) := child in
  if negb (String.eqb child_tag "object") then dict_set result child_tag child_value
  else
    let objects :=
      match assoc "object" result with
      | Some (JList l) => l
      | _ => []
      end in
    dict_set result "object" (JList (objects ++ [child_value])).

(** [xml.text]: [None] when the element has no text. *)
Definition text_value (x : string) : json :=
  if String.eqb x "" then JNull else JStr x.

(** The value entered under [xml.tag]. *)
Fixpoint parse_value (xml : element) : json :=
  match xml with
  | Element _ x cs _ =>
      match cs with
      | [] => text_value x
      | _ => JDict (fold_left add_child (map (fun c => (tag c, parse_value c)) cs) [])
      end
  end.

Definition recursive_parse_xml_to_dict (xml : element) : json :=
  JDict [(tag xml, parse_value xml)].

(** ** [dict_to_tf_example] *)

(** [int(v)] *)
Definition int_of `{Runtime} (v : json) : result Z :=
  match v with
  | JStr s => of_option (py_int s) (ValueError "invalid literal for int()")
  | JBool b => Ok (if b then 1 else 0)
  | JInt z => Ok z
  | JFloat q => Ok (number_int (Float q))
  | _ => Raise TypeError
  end.

(** [float(v)] *)
Definition float_of `{Runtime} (v : json) : result Q :=
  match v with
  | JStr s => of_option (py_float s) (ValueError "could not convert string to float")
  | JBool b => Ok (if b then 1 else 0)%Q
  | JInt z => Ok (inject_Z z)
  | JFloat q => Ok q
  | _ => Raise TypeError
  end.

(** [x / n] with true division *)
Definition true_div (x : Q) (n : Z) : result Q :=
  if (n =? 0)%Z then Raise ZeroDivisionError else Ok (x / inject_Z n)%Q.

(** [v == "s"] *)
Definition equals_str (v : json) (s : string) : bool :=
  match v with
  | JStr s' => String.eqb s' s
  | _ => false
  end.

(** The nine lists filled by the loop over [data['object']]. *)
Record object_lists : Type := ObjectLists {
  xmin : list Q;
  ymin : list Q;
  xmax : list Q;
  ymax : list Q;
  classes : list Z;
  classes_text : list string;
  truncated : list Z;
  poses : list string;
  difficult_obj : list Z
}.

Definition no_objects : object_lists :=
  ObjectLists [] [] [] [] [] [] [] [] [].

(** [float(obj['bndbox'][k]) / n] *)
Definition bndbox_coord `{Runtime} (obj : json) (k : string) (n : Z) : result Q :=
  bndbox ← getitem obj "bndbox";
  v ← getitem bndbox k;
  x ← float_of v;
  true_div x n.

(** The body of the loop [for obj in data['object']]; [continue] leaves the
    lists as they are. *)
Definition object_step `{Runtime} (label_map_dict : gmap string Z)
    (ignore_difficult_instances : bool) (width height : Z)
    (st : object_lists) (obj : json) : result object_lists :=
  d ← getitem obj "difficult";
  if equals_str d "Unspecified" then Ok st
  else
    d ← int_of d;
    let difficult := negb (d =? 0)%Z in
    if ignore_difficult_instances && difficult then Ok st
    else
      let difficult_int := (if difficult then 1 else 0)%Z in
      x0 ← bndbox_coord obj "xmin" width;
      y0 ← bndbox_coord obj "ymin" height;
      x1 ← bndbox_coord obj "xmax" width;
      y1 ← bndbox_coord obj "ymax" height;
      name ← getitem obj "name";
      name_utf8 ← as_str_method name;
      class ← of_option (label_map_dict !! name_utf8) (KeyError name_utf8);
      t ← getitem obj "truncated";
      t ← int_of t;
      pose ← getitem obj "pose";
      pose_utf8 ← as_str_method pose;
      Ok (ObjectLists
            (xmin st ++ [x0]) (ymin st ++ [y0]) (xmax st ++ [x1]) (ymax st ++ [y1])
            (classes st ++ [class]) (classes_text st ++ [name_utf8])
            (truncated st ++ [t]) (poses st ++ [pose_utf8])
            (difficult_obj st ++ [difficult_int])).

Fixpoint objects_loop `{Runtime} (label_map_dict : gmap string Z)
    (ignore_difficult_instances : bool) (width height : Z)
    (objects : list json) (st : object_lists) : result object_lists :=
  match objects with
  | [] => Ok st
  | obj :: rest =>
      st ← object_step label_map_dict ignore_difficult_instances width height st obj;
      objects_loop label_map_dict ignore_difficult_instances width height rest st
  end.

(** The feature record. *)
Record tf_example : Type := TfExample {
  image_height : Z;
  image_width : Z;
  image_filename : string;
  image_source_id : string;
  image_key_sha256 : string;
  image_encoded : string;
  image_format : string;
  image_object_bbox_xmin : list Q;
  image_object_bbox_xmax : list Q;
  image_object_bbox_ymin : list Q;
  image_object_bbox_ymax : list Q;
  image_object_class_text : list string;
  image_object_class_label : list Z;
  image_object_difficult : list Z;
  image_object_truncated : list Z;
  image_object_view : list string
}.

(** The object walk of [dict_to_tf_example]: the lines from [xmin = []] to
    the end of the loop. *)
Definition walk_objects `{Runtime} (data : json) (label_map_dict : gmap string Z)
    (ignore_difficult_instances : bool) (width height : Z) : result object_lists :=
  has_object ← py_contains_str "object" data;
  if has_object : bool then
    objects ← getitem data "object";
    objects ← py_iter objects;
    objects_loop label_map_dict ignore_difficult_instances width height
      objects no_objects
  else Ok no_objects.

Definition dict_to_tf_example `{Runtime} (fs : filesystem) (data : json)
    (image_data_directory : string) (label_map_dict : gmap string Z)
    (ignore_difficult_instances : bool) : result tf_example :=
  filename ← getitem data "filename";
  filename ← as_str filename;
  let full_path := path_join image_data_directory filename in
  encoded_jpg ← fs_read fs full_path;
  image ← of_option (image_open encoded_jpg) IOError;
  if negb (String.eqb (format image) "JPEG") && negb (String.eqb (format image) "PNG")
  then Raise (ValueError "Image format not JPEG neither PNG")
  else
    let key := sha256_hexdigest encoded_jpg in
    size ← getitem data "size";
    width ← getitem size "width";
    width ← int_of width;
    height ← getitem size "height";
    height ← int_of height;
    st ← walk_objects data label_map_dict ignore_difficult_instances width height;
    Ok (TfExample height width filename filename key encoded_jpg "jpeg"
          (xmin st) (xmax st) (ymin st) (ymax st)
          (classes_text st) (classes st) (difficult_obj st)
          (truncated st) (poses st)).

(** ** [main] *)

(** The body of the loop over the annotation files, up to the record
    handed to the writer. *)
Definition main_step `{Runtime} (fs : filesystem) (example : string)
    (annotations_dir image_data_dir : string) (label_map_dict : gmap string Z)
    (ignore_difficult_instances : bool) : result tf_example :=
  let path := path_join annotations_dir example in
  xml_str ← fs_read fs path;
  xml ← of_option (etree_fromstring xml_str) XMLSyntaxError;
  data ← getitem (recursive_parse_xml_to_dict xml) "annotation";
  dict_to_tf_example fs data image_data_dir label_map_dict
    ignore_difficult_instances.

(** The loop over the annotation files.  [written] is what the record
    writer has received so far; an exception ends the run and leaves it as
    it is. *)
Fixpoint main_loop `{Runtime} (fs : filesystem) (examples_list : list string)
    (annotations_dir image_data_dir : string) (label_map_dict : gmap string Z)
    (ignore_difficult_instances : bool) (written : list tf_example)
    : list tf_example * option exn :=
  match examples_list with
  | [] => (written, None)
  | example :: rest =>
      match main_step fs example annotations_dir image_data_dir label_map_dict
              ignore_difficult_instances with
      | Ok tf_example =>
          main_loop fs rest annotations_dir image_data_dir label_map_dict
            ignore_difficult_instances (written ++ [tf_example])
      | Raise e => (written, Some e)
      end
  end.

(** [main]: [files_list] is [os.listdir(annotations_dir)]. *)
Definition main `{Runtime} (fs : filesystem) (files_list : list string)
    (annotations_dir image_data_dir : string) (label_map_dict : gmap string Z)
    (ignore_difficult_instances : bool) : list tf_example * option exn :=
  main_loop fs files_list annotations_dir image_data_dir label_map_dict
    ignore_difficult_instances [].

End TfRecords.

(** * Annotation records and the documents written for them *)

Module Voc.

(** One labelled object and one image's annotation, as the serializer
    receives them in [convert_to_PascalVOC]: the label, the extents of the
    box, and the names and dimensions that go into the header. *)
Record labeled_object : Type := LabeledObject {
  label : string;
  bndbox : Dataturks.box
}.

Record annotation_record : Type := AnnotationRecord {
  folder : string;
  filename : string;
  path : string;
  width : Z;
  height : Z;
  objects : list labeled_object
}.

(** The text [convert_to_PascalVOC] builds for a record: the header, one
    [get_xml_for_bbx] block per object, and the closing tag. *)
Definition blocks `{Runtime} (objs : list labeled_object) : string :=
  cat (map (fun o => Dataturks.object_xml (label o) (bndbox o)) objs).

Definition serialize `{Runtime} (r : annotation_record) : string :=
  Dataturks.annotation_header (folder r) (filename r) (path r) (width r) (height r)
  ++ blocks (objects r)
  ++ "</annotation>".






(** The mapping [main] of the second converter hands to
    [dict_to_tf_example] for a document. *)
Definition voc_data (doc : element) : result json :=
  getitem (TfRecords.recursive_parse_xml_to_dict doc) "annotation".


(** A coordinate of the boxes of a record, divided by a dimension. *)
Definition fractional (r : annotation_record) (coord : Dataturks.box -> number)
    (dimension : Z) : list Q :=
  map (fun o => number_value (coord (bndbox o)) / inject_Z dimension)%Q (objects r).






(** The objects of a parsed annotation, and what the difficulty rules of
    [dict_to_tf_example] make of each. *)
Definition data_objects (data : json) : list json :=
  match py_contains_str "object" data with
  | Ok true =>
      match getitem data "object" ≫= py_iter with
      | Ok l => l
      | Raise _ => []
      end
  | _ => []
  end.

Definition is_unspecified (obj : json) : bool :=
  match getitem obj "difficult" with
  | Ok d => TfRecords.equals_str d "Unspecified"
  | Raise _ => false
  end.

Definition is_difficult `{Runtime} (obj : json) : bool :=
  match getitem obj "difficult" ≫= TfRecords.int_of with
  | Ok d => negb (d =? 0)%Z
  | Raise _ => false
  end.

Definition retained `{Runtime} (ignore_difficult_instances : bool) (obj : json) : bool :=
  negb (is_unspecified obj)
  && negb (ignore_difficult_instances && is_difficult obj).

(** The fields of an object of a parsed annotation, read as
    [dict_to_tf_example] reads them (with a default where the reading
    raises). *)
Definition obj_name (obj : json) : string :=
  match getitem obj "name" with
  | Ok (JStr s) => s
  | _ => ""
  end.

Definition obj_pose (obj : json) : string :=
  match getitem obj "pose" with
  | Ok (JStr s) => s
  | _ => ""
  end.

Definition obj_class (label_map_dict : gmap string Z) (obj : json) : Z :=
  default 0%Z (label_map_dict !! obj_name obj).

Definition obj_truncated `{Runtime} (obj : json) : Z :=
  match getitem obj "truncated" ≫= TfRecords.int_of with
  | Ok t => t
  | Raise _ => 0%Z
  end.

Definition obj_difficult `{Runtime} (obj : json) : Z :=
  if is_difficult obj then 1%Z else 0%Z.

Definition obj_coord `{Runtime} (obj : json) (k : string) (n : Z) : Q :=
  match TfRecords.bndbox_coord obj k n with
  | Ok x => x
  | Raise _ => 0%Q
  end.

(** The lists the specification describes for a list of objects: one entry
    per retained object, in the order of the objects. *)
Definition expected_lists `{Runtime} (label_map_dict : gmap string Z)
    (ignore_difficult_instances : bool) (width height : Z) (objs : list json)
    : TfRecords.object_lists :=
  let kept := List.filter (retained ignore_difficult_instances) objs in
  TfRecords.ObjectLists
    (map (fun o => obj_coord o "xmin" width) kept)
    (map (fun o => obj_coord o "ymin" height) kept)
    (map (fun o => obj_coord o "xmax" width) kept)
    (map (fun o => obj_coord o "ymax" height) kept)
    (map (obj_class label_map_dict) kept)
    (map obj_name kept)
    (map obj_truncated kept)
    (map obj_pose kept)
    (map obj_difficult kept).

(** Concatenation of the lists, field by field. *)
Definition append_lists (a b : TfRecords.object_lists) : TfRecords.object_lists :=
  TfRecords.ObjectLists
    (TfRecords.xmin a ++ TfRecords.xmin b) (TfRecords.ymin a ++ TfRecords.ymin b)
    (TfRecords.xmax a ++ TfRecords.xmax b) (TfRecords.ymax a ++ TfRecords.ymax b)
    (TfRecords.classes a ++ TfRecords.classes b)
    (TfRecords.classes_text a ++ TfRecords.classes_text b)
    (TfRecords.truncated a ++ TfRecords.truncated b)
    (TfRecords.poses a ++ TfRecords.poses b)
    (TfRecords.difficult_obj a ++ TfRecords.difficult_obj b).

End Voc.

(** * A runtime to evaluate the converters on examples *)

Module Example.

(** Decimal numerals.  [float_decimal] reads [-]digits[.digits] and
    [int_decimal] reads [-]digits, as [float] and [int] do on such strings;
    [repr_decimal] writes a rational that has a finite decimal expansion the
    way [str] writes the float of that value. *)

Definition digit_value (c : ascii) : option Z :=
  let n := Z.of_nat (nat_of_ascii c) in
  if (48 <=? n)%Z && (n <=? 57)%Z then Some (n - 48)%Z else None.

Fixpoint digits_value (s : string) (acc : Z) : option Z :=
  match s with
  | EmptyString => Some acc
  | String c s' =>
      match digit_value c with
      | Some d => digits_value s' (10 * acc + d)
      | None => None
      end
  end.

Definition strip_sign (s : string) : bool * string :=
  match s with
  | String "-" s' => (true, s')
  | _ => (false, s)
  end.

Definition int_decimal (s : string) : option Z :=
  let '(neg, body) := strip_sign s in
  match body with
  | EmptyString => None
  | _ =>
      match digits_value body 0 with
      | Some n => Some (if neg then - n else n)
      | None => None
      end
  end.

(** The characters before the first [c], and those after it. *)
Fixpoint take_until (c : ascii) (s : string) : option (string * string) :=
  match s with
  | EmptyString => None
  | String c' s' =>
      if Ascii.eqb c' c then Some ("", s')
      else match take_until c s' with
           | Some (a, b) => Some (String c' a, b)
           | None => None
           end
  end.

Definition float_decimal (s : string) : option Q :=
  let '(neg, body) := strip_sign s in
  let '(ip, fp) :=
    match take_until "." body with
    | Some (a, b) => (a, b)
    | None => (body, "")
    end in
  match ip with
  | EmptyString => None
  | _ =>
      match digits_value ip 0, digits_value fp 0 with
      | Some i, Some f =>
          let scale := Pos.pow 10 (Pos.of_nat (String.length fp)) in
          let scale := match fp with EmptyString => 1%positive | _ => scale end in
          let n := (i * Zpos scale + f)%Z in
          Some (Qmake (if neg then - n else n) scale)
      | _, _ => None
      end
  end.

Fixpoint frac_digits (fuel : nat) (r d : Z) : string :=
  match fuel with
  | O => ""
  | S fuel' =>
      if (r =? 0)%Z then ""
      else pretty (10 * r / d)%Z ++ frac_digits fuel' ((10 * r) mod d)%Z d
  end.

Definition repr_decimal (q : Q) : string :=
  let n := Qnum q in
  let d := Zpos (Qden q) in
  let a := Z.abs n in
  let fr := frac_digits 17 (a mod d)%Z d in
  (if (n <? 0)%Z then "-" else "") ++ pretty (a / d)%Z ++ "."
  ++ (match fr with EmptyString => "0" | _ => fr end).

(** A reader for documents made of start tags, end tags and text, which is
    the form of the documents written by [convert_to_PascalVOC].

    [read_content fuel s] reads, after the [<] of a tag, the elements up to
    the end tag of their parent, and returns them with the name in that end
    tag and the rest of the input. *)
Fixpoint read_content (fuel : nat) (s : string)
    : option (list element * string * string) :=
  match fuel with
  | O => None
  | S fuel' =>
      match s with
      | String "/" s' =>
          match take_until ">" s' with
          | Some (name, rest) => Some ([], name, rest)
          | None => None
          end
      | _ =>
          match take_until ">" s with
          | None => None
          | Some (name, s1) =>
              match take_until "<" s1 with
              | None => None
              | Some (x, s2) =>
                  match read_content fuel' s2 with
                  | None => None
                  | Some (cs, close, s3) =>
                      if negb (String.eqb close name) then None
                      else
                        match take_until "<" s3 with
                        | None => None
                        | Some (tl, s4) =>
                            match read_content fuel' s4 with
                            | None => None
                            | Some (siblings, up, s5) =>
                                Some (Element name x cs tl :: siblings, up, s5)
                            end
                        end
                  end
              end
          end
      end
  end.

(** A document is one element followed by nothing. *)
Definition read_document (s : string) : option element :=
  match s with
  | String "<" s0 =>
      match take_until ">" s0 with
      | None => None
      | Some (name, s1) =>
          match take_until "<" s1 with
          | None => None
          | Some (x, s2) =>
              match read_content (String.length s) s2 with
              | Some (cs, close, EmptyString) =>
                  if String.eqb close name then Some (Element name x cs "") else None
              | _ => None
              end
          end
      end
  | _ => None
  end.

(** The runtime of the examples.  [json.loads] and [Image.open] are given
    by their graphs on the inputs of the example at hand; the digest is left
    blank. *)
Definition runtime (lines : list (string * json)) (images : list (string * image))
    : Runtime :=
  {| repr_float := repr_decimal;
     py_float := float_decimal;
     py_int := int_decimal;
     json_loads := fun s => assoc s lines;
     sha256_hexdigest := fun _ => "";
     image_open := fun bytes => assoc bytes images;
     etree_fromstring := read_document |}.

(** The double quote of the JSON texts. *)
Definition DQ : string := String (ascii_of_nat 34) "".

Definition quoted (s : string) : string := DQ ++ s ++ DQ.

(** A line whose [annotation] array is empty, and a line that is not
    JSON. *)
Definition skipped_line : string :=
  "{" ++ quoted "content" ++ ": " ++ quoted "http://host/a___Total_img0.jpg"
  ++ ", " ++ quoted "annotation" ++ ": []}".

Definition skipped_item : json :=
  JDict [("content", JStr "http://host/a___Total_img0.jpg");
         ("annotation", JList [])].

Definition broken_line : string := "{" ++ quoted "content" ++ ": ".

Definition no_files : filesystem := Filesystem ∅ (fun _ => true).

Definition skip_runtime : Runtime := runtime [(skipped_line, skipped_item)] [].

(** A generator that always picks the first [k] of the population. *)
Definition first_k (population : list nat) (k : nat) : list nat :=
  firstn k population.

(** A parsed annotation of a 100 x 200 image with three objects: one of
    "Unspecified" difficulty, one difficult, one not difficult. *)
Definition parsed_object (name pose truncated difficult xmin xmax ymin ymax : string)
    : json :=
  JDict [("name", JStr name); ("pose", JStr pose); ("truncated", JStr truncated);
         ("difficult", JStr difficult); ("occluded", JStr "0");
         ("bndbox", JDict [("xmin", JStr xmin); ("xmax", JStr xmax);
                           ("ymin", JStr ymin); ("ymax", JStr ymax)])].

Definition parsed_annotation (objs : list json) : json :=
  JDict [("folder", JStr "Total"); ("filename", JStr "scan1.jpg");
         ("path", JStr "images/Total/scan1.jpg");
         ("source", JDict [("database", JStr "Unknown")]);
         ("size", JDict [("width", JStr "100"); ("height", JStr "200");
                         ("depth", JStr "3")]);
         ("segmented", JStr "0");
         ("object", JList objs)].

Definition three_objects : list json :=
  [ parsed_object "cat" "Unspecified" "Unspecified" "Unspecified"
      "10.0" "50.0" "20.0" "100.0";
    parsed_object "dog" "Left" "0" "1" "25" "75" "50" "150";
    parsed_object "cat" "Frontal" "1" "0" "0" "100" "0" "200" ].

Definition scan_bytes : string := "scan1.jpg as JPEG, 100 x 200".

Definition scan_files : filesystem :=
  Filesystem {[ "images/Total/scan1.jpg" := scan_bytes ]} (fun _ => true).

Definition scan_runtime : Runtime :=
  runtime [] [(scan_bytes, Image "JPEG" (100, 200))].

Definition cat_dog : gmap string Z := {[ "cat" := 1; "dog" := 2 ]}.

(** A line of the labelling tool's export: one rectangle labelled "cat" on
    the image [scan1.jpg]; and the value [json.loads] makes of it. *)
Definition labelled_line : string :=
  "{" ++ quoted "content" ++ ": " ++ quoted "http://host/a___Total_scan1.jpg"
  ++ ", " ++ quoted "annotation" ++ ": [{" ++ quoted "label" ++ ": ["
  ++ quoted "cat" ++ "], " ++ quoted "shape" ++ ": " ++ quoted "rectangle"
  ++ ", " ++ quoted "points"
  ++ ": [[0.1, 0.1], [0.5, 0.1], [0.5, 0.5], [0.1, 0.5]], "
  ++ quoted "imageWidth" ++ ": 100, " ++ quoted "imageHeight" ++ ": 200}]}".

Definition labelled_item : json :=
  JDict [("content", JStr "http://host/a___Total_scan1.jpg");
         ("annotation",
          JList [JDict [("label", JList [JStr "cat"]);
                        ("shape", JStr "rectangle");
                        ("points", JList [JList [JFloat 0.1; JFloat 0.1];
                                          JList [JFloat 0.5; JFloat 0.1];
                                          JList [JFloat 0.5; JFloat 0.5];
                                          JList [JFloat 0.1; JFloat 0.5]]);
                        ("imageWidth", JInt 100);
                        ("imageHeight", JInt 200)]])].

Definition pipeline_runtime : Runtime :=
  runtime [(labelled_line, labelled_item)] [(scan_bytes, Image "JPEG" (100, 200))].

(** The annotation record of that line. *)
Definition labelled_record : Voc.annotation_record :=
  Voc.AnnotationRecord "Total" "scan1.jpg" "images/Total/scan1.jpg" 100 200
    [Voc.LabeledObject "cat"
       (Dataturks.Box (Float (100 * 0.1)) (Float (200 * 0.1))
                      (Float (100 * 0.5)) (Float (200 * 0.5)))].

End Example.

(** * The point data of an object, and the arithmetic of the specification *)

Module Points.

Definition json_of_number (n : number) : json :=
  match n with
  | Int z => JInt z
  | Float q => JFloat q
  end.

(** A point of the 4-point form, [[x, y]], and of the 2-point form,
    [{"x": x, "y": y}]. *)
Definition pair (x y : number) : json :=
  JList [json_of_number x; json_of_number y].

Definition xy (x y : number) : json :=
  JDict [("x", json_of_number x); ("y", json_of_number y)].

(** The least and the greatest of four rationals. *)
Definition Qmin4 (a b c d : Q) : Q := Qmin a (Qmin b (Qmin c d)).
Definition Qmax4 (a b c d : Q) : Q := Qmax a (Qmax b (Qmax c d)).

(** Truncation towards zero. *)
Definition Qtrunc (x : Q) : Z :=
  if Qle_bool 0 x then Qfloor x else Qceiling x.

End Points.


(** * Further notions used in the properties of the converters *)

Module Geometry.

(** A fractional coordinate: a number between 0 and 1. *)
Definition fractional (n : number) : Prop :=
  (0 <= number_value n <= 1)%Q.


Definition xys (ps : list (number * number)) : json :=
  JList (map (fun p => Points.xy (fst p) (snd p)) ps).

End Geometry.

Module Paths.



End Paths.

(** The objects of an annotation, as the specification describes the
    building of an annotation record from the labelling tool's JSON: an
    entry that is empty, or whose shape is present and is not "rectangle",
    gives no object; a label that is a single string stands for the list of
    that one label; an entry gives one object per label, all with the box
    of the entry.  [None] marks an entry or an annotation that is none of
    these. *)
Module Builder.

Fixpoint strings_of (l : list json) : option (list string) :=
  match l with
  | [] => Some []
  | JStr s :: l' =>
      match strings_of l' with
      | Some ss => Some (s :: ss)
      | None => None
      end
  | _ => None
  end.





End Builder.

(** Further inputs for the examples. *)
Module Samples.






End Samples.

Module Encoder.


(** [int(data['size'][k])] *)
Definition declared_size `{Runtime} (data : json) (k : string) : result Z :=
  size ← getitem data "size";
  v ← getitem size k;
  TfRecords.int_of v.

(** What the loop of [dict_to_tf_example] has read of an object it
    retains: a name that is a string and a key of the label map, a pose that
    is a string, a truncated flag that is an integer, and the four
    coordinates. *)
Definition read `{Runtime} (label_map_dict : gmap string Z) (width height : Z)
    (obj : json) : Prop :=
  getitem obj "name" = Ok (JStr (Voc.obj_name obj))
  /\ label_map_dict !! Voc.obj_name obj = Some (Voc.obj_class label_map_dict obj)
  /\ getitem obj "pose" = Ok (JStr (Voc.obj_pose obj))
  /\ (getitem obj "truncated" ≫= TfRecords.int_of) = Ok (Voc.obj_truncated obj)
  /\ TfRecords.bndbox_coord obj "xmin" width = Ok (Voc.obj_coord obj "xmin" width)
  /\ TfRecords.bndbox_coord obj "ymin" height = Ok (Voc.obj_coord obj "ymin" height)
  /\ TfRecords.bndbox_coord obj "xmax" width = Ok (Voc.obj_coord obj "xmax" width)
  /\ TfRecords.bndbox_coord obj "ymax" height = Ok (Voc.obj_coord obj "ymax" height).


End Encoder.

Module Images.

(** A PNG image of 640 x 480, and a GIF image, stored under the name the
    annotation of [Example.parsed_annotation] refers to. *)
Definition png_bytes : string := "scan1.jpg as PNG, 640 x 480".
Definition gif_bytes : string := "scan1.jpg as GIF, 100 x 200".

Definition png_files : filesystem :=
  Filesystem {[ "images/Total/scan1.jpg" := png_bytes ]} (fun _ => true).

Definition gif_files : filesystem :=
  Filesystem {[ "images/Total/scan1.jpg" := gif_bytes ]} (fun _ => true).

Definition runtime : Runtime :=
  Example.runtime []
    [(png_bytes, Image "PNG" (640, 480)); (gif_bytes, Image "GIF" (100, 200))].

End Images.

Module Listing.

(** A directory of annotations with the document of
    [Example.labelled_record] and a file that is not XML, beside the image
    of the record. *)
Definition files : filesystem :=
  Filesystem
    {[ "images/Total/scan1.jpg" := Example.scan_bytes;
       "voc/train/scan1.jpg.xml" :=
         @Voc.serialize Example.pipeline_runtime Example.labelled_record;
       "voc/train/notes.txt" := "not an annotation" ]}
    (fun _ => true).

End Listing.
(** * Properties *)

(** ** The error monad *)

Lemma bind_Ok {A B : Type} (a : A) (k : A -> result B) : (Ok a ≫= k) = k a.
Proof. reflexivity. Qed.

Lemma bind_Raise {A B : Type} (e : exn) (k : A -> result B) :
  (Raise e ≫= k) = Raise e.
Proof. reflexivity. Qed.

Lemma bind_Ok_inv {A B : Type} (m : result A) (k : A -> result B) (b : B) :
  m ≫= k = Ok b -> exists a, m = Ok a /\ k a = Ok b.
Proof. destruct m as [a|e]; [eauto | discriminate]. Qed.

(** Evaluation of the steps whose outcome is known. *)
Ltac run :=
  repeat first
    [ rewrite bind_Ok
    | rewrite bind_Raise
    | progress cbn [getindex nth_error of_option py_len List.length Nat.eqb
                    as_str as_str_method] ].

Tactic Notation "run" "in" hyp(H) :=
  repeat first
    [ rewrite bind_Ok in H
    | rewrite bind_Raise in H
    | progress cbn [getindex nth_error of_option py_len List.length Nat.eqb
                    as_str as_str_method] in H ].

(** Evaluation that also looks up the literal keys of literal dicts. *)
Ltac steps :=
  repeat first
    [ progress run
    | progress cbn [getitem assoc String.eqb Ascii.eqb Bool.eqb of_option] ].

(** ** Numbers *)

Lemma number_mul_value (a b : number) :
  (number_value (number_mul a b) == number_value a * number_value b)%Q.
Proof.
  destruct a as [x|p], b as [y|q]; simpl; try reflexivity.
Qed.

Lemma number_lt_spec (a b : number) :
  number_lt a b = true <-> (number_value a < number_value b)%Q.
Proof.
  unfold number_lt.
  destruct (Qcompare_spec (number_value a) (number_value b)) as [E|L|G];
    split; intros H; try discriminate; try reflexivity; try assumption.
  - rewrite E in H. exfalso. exact (Qlt_irrefl _ H).
  - exfalso. exact (Qlt_irrefl _ (Qlt_trans _ _ _ H G)).
Qed.

Lemma number_gt_spec (a b : number) :
  number_gt a b = true <-> (number_value b < number_value a)%Q.
Proof.
  unfold number_gt.
  destruct (Qcompare_spec (number_value a) (number_value b)) as [E|L|G];
    split; intros H; try discriminate; try reflexivity; try assumption.
  - rewrite E in H. exfalso. exact (Qlt_irrefl _ H).
  - exfalso. exact (Qlt_irrefl _ (Qlt_trans _ _ _ H L)).
Qed.

(** The running minimum of CPython is the mathematical minimum. *)
Lemma Qmin_either (x y : Q) :
  ((x <= y)%Q /\ (Qmin x y == x)%Q) \/ ((y < x)%Q /\ (Qmin x y == y)%Q).
Proof.
  destruct (Qlt_le_dec y x) as [L|L].
  - right. split; [assumption|]. apply Q.min_r. apply Qlt_le_weak. assumption.
  - left. split; [assumption|]. apply Q.min_l. assumption.
Qed.

Lemma Qmax_either (x y : Q) :
  ((x <= y)%Q /\ (Qmax x y == y)%Q) \/ ((y < x)%Q /\ (Qmax x y == x)%Q).
Proof.
  destruct (Qlt_le_dec y x) as [L|L].
  - right. split; [assumption|]. apply Q.max_l. apply Qlt_le_weak. assumption.
  - left. split; [assumption|]. apply Q.max_r. assumption.
Qed.

(** Case analysis on the comparisons between variables in the goal. *)
Ltac split_lt :=
  repeat match goal with
    | |- context [number_lt ?a ?b] =>
        is_var a; is_var b;
        let E := fresh "E" in
        destruct (number_lt a b) eqn:E;
        [apply number_lt_spec in E
        |apply not_true_iff_false in E; rewrite number_lt_spec in E;
         apply Qnot_lt_le in E]
    | |- context [number_gt ?a ?b] =>
        is_var a; is_var b;
        let E := fresh "E" in
        destruct (number_gt a b) eqn:E;
        [apply number_gt_spec in E
        |apply not_true_iff_false in E; rewrite number_gt_spec in E;
         apply Qnot_lt_le in E]
    end.

(** The defining facts of the nested minima and maxima of four values. *)
Ltac min4_facts a b c d :=
  destruct (Qmin_either c d) as [[? ?]|[? ?]];
  destruct (Qmin_either b (Qmin c d)) as [[? ?]|[? ?]];
  destruct (Qmin_either a (Qmin b (Qmin c d))) as [[? ?]|[? ?]].

Ltac max4_facts a b c d :=
  destruct (Qmax_either c d) as [[? ?]|[? ?]];
  destruct (Qmax_either b (Qmax c d)) as [[? ?]|[? ?]];
  destruct (Qmax_either a (Qmax b (Qmax c d))) as [[? ?]|[? ?]].

Lemma py_min4_value (a b c d : number) :
  (number_value (py_min4 a b c d)
   == Points.Qmin4 (number_value a) (number_value b) (number_value c) (number_value d))%Q.
Proof.
  unfold py_min4, Points.Qmin4. cbv zeta.
  split_lt;
    min4_facts (number_value a) (number_value b) (number_value c) (number_value d);
    lra.
Qed.

Lemma py_max4_value (a b c d : number) :
  (number_value (py_max4 a b c d)
   == Points.Qmax4 (number_value a) (number_value b) (number_value c) (number_value d))%Q.
Proof.
  unfold py_max4, Points.Qmax4. cbv zeta.
  split_lt;
    max4_facts (number_value a) (number_value b) (number_value c) (number_value d);
    lra.
Qed.

Lemma Qmin4_le_Qmax4 (a b c d : Q) : (Points.Qmin4 a b c d <= Points.Qmax4 a b c d)%Q.
Proof.
  unfold Points.Qmin4, Points.Qmax4.
  min4_facts a b c d; max4_facts a b c d; lra.
Qed.

(** ** The box of an object ([get_xml_for_bbx]) *)

Lemma as_number_json_of_number (n : number) :
  as_number (Points.json_of_number n) = Ok n.
Proof. destruct n; reflexivity. Qed.

Lemma scale_le (w : Z) (a b : Q) :
  0 <= w -> (a <= b)%Q -> (inject_Z w * a <= inject_Z w * b)%Q.
Proof.
  intros Hw Hab.
  assert (0 <= inject_Z w)%Q as H0.
  { change 0%Q with (inject_Z 0). rewrite <- Zle_Qle. exact Hw. }
  nra.
Qed.



(** C7.  On a 100 x 200 image, the rectangle with the fractional points
    (0.1, 0.1), (0.5, 0.1), (0.5, 0.5), (0.1, 0.5) gets the box
    [xmin = 10], [ymin = 20], [xmax = 50], [ymax = 100]. *)
Theorem concrete_rectangle_box :
  exists b : Dataturks.box,
    Dataturks.bbx_extents
      (JDict [("label", JStr "cat"); ("shape", JStr "rectangle");
              ("points", JList [Points.pair (Float 0.1) (Float 0.1);
                                Points.pair (Float 0.5) (Float 0.1);
                                Points.pair (Float 0.5) (Float 0.5);
                                Points.pair (Float 0.1) (Float 0.5)])])
      100 200 = Ok b
    /\ (number_value (Dataturks.xmin b) == 10)%Q
    /\ (number_value (Dataturks.ymin b) == 20)%Q
    /\ (number_value (Dataturks.xmax b) == 50)%Q
    /\ (number_value (Dataturks.ymax b) == 100)%Q.
Proof.
  eexists. split; [reflexivity|].
  repeat split; reflexivity.
Qed.

(** [int()] on a number is truncation towards zero. *)
Lemma number_int_trunc (n : number) : number_int n = Points.Qtrunc (number_value n).
Proof.
  unfold Points.Qtrunc. destruct n as [z|[p d]]; cbn [number_int number_value].
  - rewrite Qfloor_Z, Qceiling_Z. destruct (Qle_bool 0 (inject_Z z)); reflexivity.
  - cbn [Qnum Qden]. destruct (Qle_bool 0 (p # d)) eqn:E.
    + apply Qle_bool_iff in E. unfold Qle in E. cbn in E.
      unfold Qfloor. apply Z.quot_div_nonneg; lia.
    + assert (p < 0) as Hp.
      { destruct (Z.ltb_spec p 0) as [L|L]; [assumption|].
        assert (Qle_bool 0 (p # d) = true) as T
          by (apply Qle_bool_iff; unfold Qle; cbn; lia).
        congruence. }
      unfold Qceiling, Qfloor. cbn [Qopp Qnum Qden].
      rewrite <- (Z.opp_involutive p) at 1.
      rewrite Z.quot_opp_l by lia.
      f_equal. apply Z.quot_div_nonneg; lia.
Qed.

Lemma Qtrunc_le (a b : Q) : (a <= b)%Q -> Points.Qtrunc a <= Points.Qtrunc b.
Proof.
  intros Hab. unfold Points.Qtrunc.
  destruct (Qle_bool 0 a) eqn:Ea, (Qle_bool 0 b) eqn:Eb.
  - apply Qfloor_resp_le. assumption.
  - apply Qle_bool_iff in Ea. apply not_true_iff_false in Eb.
    rewrite Qle_bool_iff in Eb. exfalso. apply Eb. lra.
  - apply not_true_iff_false in Ea. rewrite Qle_bool_iff in Ea.
    apply Qle_bool_iff in Eb.
    assert (Qceiling a <= 0).
    { change 0 with (Qceiling (inject_Z 0)) at 1. rewrite Qceiling_Z.
      rewrite <- (Qceiling_Z 0). apply Qceiling_resp_le.
      change (inject_Z 0) with 0%Q. lra. }
    assert (0 <= Qfloor b).
    { rewrite <- (Qfloor_Z 0). apply Qfloor_resp_le. assumption. }
    lia.
  - apply Qceiling_resp_le. assumption.
Qed.

Lemma Qtrunc_comp (a b : Q) : (a == b)%Q -> Points.Qtrunc a = Points.Qtrunc b.
Proof.
  intros E. apply Z.le_antisymm; apply Qtrunc_le; rewrite E; apply Qle_refl.
Qed.





(** ** The train/validation split ([main]) *)




(** What is asked of [random.sample] can be had for every population and
    every [k] within its size: the first [k] elements will do. *)
Lemma first_k_is_sample (n k : nat) :
  (k <= n)%nat ->
  Dataturks.is_sample (seq 0 n) k (Example.first_k (seq 0 n) k).
Proof.
  intros Hk. unfold Dataturks.is_sample, Example.first_k. split; [|split].
  - rewrite length_firstn, length_seq. lia.
  - apply (NoDup_app_remove_r _ (skipn k (seq 0 n))).
    rewrite firstn_skipn. apply seq_NoDup.
  - intros i Hi. rewrite <- (firstn_skipn k (seq 0 n)).
    apply in_or_app. left. exact Hi.
Qed.



(** ** Skipped and failed items ([convert_to_PascalVOC], [main]) *)

(** An item for which [convert_to_PascalVOC] returns [False] leaves the
    counter and the files as they were. *)
Lemma main_loop_ignored `{Runtime} (line : string) (rest : list string) (idx : nat)
    (validation_indices : list nat) (image_dir train_dir validation_dir : string)
    (fs : filesystem) (success : nat) :
  Dataturks.convert_to_PascalVOC fs line image_dir
    (Dataturks.out_dir validation_indices idx train_dir validation_dir) = (false, fs) ->
  Dataturks.main_loop (line :: rest) idx validation_indices
    image_dir train_dir validation_dir fs success
  = Dataturks.main_loop rest (S idx) validation_indices
      image_dir train_dir validation_dir fs success.
Proof.
  intros E. cbn [Dataturks.main_loop]. rewrite E. reflexivity.
Qed.

(** The counter grows by at most one per line. *)
Lemma main_loop_bounds `{Runtime} (lines : list string) (idx : nat)
    (validation_indices : list nat) (image_dir train_dir validation_dir : string)
    (fs : filesystem) (success : nat) :
  (success
   <= fst (Dataturks.main_loop lines idx validation_indices
             image_dir train_dir validation_dir fs success)
   <= success + List.length lines)%nat.
Proof.
  revert idx fs success.
  induction lines as [|line rest IH]; intros idx fs success.
  - cbn. lia.
  - cbn [Dataturks.main_loop List.length].
    destruct (Dataturks.convert_to_PascalVOC fs line image_dir _) as [[|] fs'];
      match goal with
      | |- context [Dataturks.main_loop rest ?i _ _ _ _ ?f ?s] =>
          specialize (IH i f s)
      end; lia.
Qed.

(** Lines after which [convert_to_PascalVOC] returns [False] whatever the
    files are do not count as done. *)
Lemma main_loop_skipping `{Runtime} (line : string) (pre post : list string)
    (idx : nat) (validation_indices : list nat)
    (image_dir train_dir validation_dir : string) (fs : filesystem) (success : nat) :
  (forall fs' out, Dataturks.convert_to_PascalVOC fs' line image_dir out = (false, fs')) ->
  (fst (Dataturks.main_loop (pre ++ line :: post) idx validation_indices
          image_dir train_dir validation_dir fs success)
   <= success + List.length pre + List.length post)%nat.
Proof.
  intros Hskip. revert idx fs success.
  induction pre as [|l pre IH]; intros idx fs success.
  - cbn [app]. rewrite main_loop_ignored by apply Hskip.
    pose proof (main_loop_bounds post (S idx) validation_indices
                  image_dir train_dir validation_dir fs success).
    cbn [List.length]. lia.
  - cbn [app Dataturks.main_loop List.length].
    destruct (Dataturks.convert_to_PascalVOC fs l image_dir _) as [[|] fs'];
      match goal with
      | |- context [Dataturks.main_loop _ ?i _ _ _ _ ?f ?s] =>
          specialize (IH i f s)
      end; lia.
Qed.

(** C5, as amended.  For a line whose JSON has an empty [annotation] array,
    [convert_to_PascalVOC] writes no file and returns [False], which is also
    what it returns for a line whose processing raises an exception; [main]
    keeps one counter, of the items done, so the line is among the items
    "ignored due to errors or for being skipped items" and not among the
    items done. *)
Theorem empty_annotation_is_ignored `{Runtime}
    (line : string) (data annotation : json) :
  json_loads line = Some data ->
  getitem data "annotation" = Ok annotation ->
  py_len annotation = Ok 0%nat ->
  (forall fs image_dir xml_out_dir,
     Dataturks.convert_to_PascalVOC fs line image_dir xml_out_dir = (false, fs))
  /\ (forall fs image_dir xml_out_dir failing e,
        Dataturks.convert_try fs failing image_dir xml_out_dir = Raise e ->
        Dataturks.convert_to_PascalVOC fs failing image_dir xml_out_dir
        = Dataturks.convert_to_PascalVOC fs line image_dir xml_out_dir)
  /\ (forall choose pre post image_dir train_dir validation_dir validation_split
             fs fs' s,
        Dataturks.main choose (pre ++ line :: post)
          image_dir train_dir validation_dir validation_split fs = Ok (Some s, fs') ->
        (Dataturks.items_done s <= List.length pre + List.length post)%nat
        /\ (1 <= Dataturks.items_ignored s)%nat
        /\ (Dataturks.items_done s + Dataturks.items_ignored s
            = List.length (pre ++ line :: post))%nat).
Proof.
  intros Hloads Hann Hlen.
  assert (forall fs image_dir xml_out_dir,
            Dataturks.convert_to_PascalVOC fs line image_dir xml_out_dir = (false, fs))
    as Hskip.
  { intros fs image_dir xml_out_dir.
    unfold Dataturks.convert_to_PascalVOC, Dataturks.convert_try.
    rewrite Hloads. run. rewrite Hann. run. rewrite Hlen. run. reflexivity. }
  split; [exact Hskip|]. split.
  - intros fs image_dir xml_out_dir failing e Hfail.
    rewrite Hskip. unfold Dataturks.convert_to_PascalVOC. rewrite Hfail. reflexivity.
  - intros choose pre post image_dir train_dir validation_dir validation_split
      fs fs' s Hmain.
    unfold Dataturks.main in Hmain.
    destruct (pre ++ line :: post)%list as [|l0 ls] eqn:Elines.
    { destruct pre; discriminate. }
    rewrite <- Elines in Hmain |- *. clear Elines.
    apply bind_Ok_inv in Hmain. destruct Hmain as (vi & _ & Hmain).
    pose proof (main_loop_skipping line pre post 0 vi
                  image_dir train_dir validation_dir fs 0
                  (fun fs' out => Hskip fs' image_dir out)) as Hle.
    destruct (Dataturks.main_loop (pre ++ line :: post)%list 0 vi _ _ _ fs 0)
      as [success fs''].
    inversion Hmain; subst. cbn [fst Dataturks.items_done Dataturks.items_ignored] in *.
    rewrite length_app in *. cbn [List.length] in *. lia.
Qed.

(** A line with an empty [annotation] array, alone in its file. *)
Lemma empty_annotation_is_ignored_witness :
  @Dataturks.convert_to_PascalVOC Example.skip_runtime Example.no_files
    Example.skipped_line "images/Total" "voc/train" = (false, Example.no_files)
  /\ @Dataturks.main Example.skip_runtime Example.first_k [Example.skipped_line]
       "images/Total" "voc/train" "voc/validation" 0.2 Example.no_files
     = Ok (Some (Dataturks.Summary 0 1), Example.no_files)
  /\ (1 <= Dataturks.items_ignored (Dataturks.Summary 0 1))%nat.
Proof.
  destruct (@empty_annotation_is_ignored Example.skip_runtime
              Example.skipped_line Example.skipped_item (JList [])
              eq_refl eq_refl eq_refl) as (Hskip & _ & Hmain).
  split; [apply Hskip|]. split; [reflexivity|].
  apply (Hmain Example.first_k [] [] "images/Total" "voc/train" "voc/validation"
           0.2%Q Example.no_files Example.no_files (Dataturks.Summary 0 1)).
  reflexivity.
Defined.

(** C5 as stated fails: a line with an empty [annotation] array and a line
    that is not JSON get the same return value, although the first leaves
    the [try] block by [return False] and the second by an exception, and
    the two runs end with the same counts. *)
Lemma skipped_and_failed_items_are_counted_alike :
  @Dataturks.convert_try Example.skip_runtime Example.no_files
    Example.skipped_line "images/Total" "voc/train" = Ok (false, Example.no_files)
  /\ @Dataturks.convert_try Example.skip_runtime Example.no_files
       Example.broken_line "images/Total" "voc/train"
     = Raise (ValueError "JSONDecodeError")
  /\ @Dataturks.convert_to_PascalVOC Example.skip_runtime Example.no_files
       Example.skipped_line "images/Total" "voc/train"
     = @Dataturks.convert_to_PascalVOC Example.skip_runtime Example.no_files
         Example.broken_line "images/Total" "voc/train"
  /\ @Dataturks.main Example.skip_runtime Example.first_k [Example.skipped_line]
       "images/Total" "voc/train" "voc/validation" 0.2 Example.no_files
     = @Dataturks.main Example.skip_runtime Example.first_k [Example.broken_line]
         "images/Total" "voc/train" "voc/validation" 0.2 Example.no_files.
Proof.
  repeat split.
Qed.

(** ** The object walk of [dict_to_tf_example] *)

Section ObjectWalk.

Context `{Runtime}.
Variable label_map_dict : gmap string Z.
Variable ignore_difficult_instances : bool.
Variables width height : Z.

Local Abbreviation step := (TfRecords.object_step label_map_dict ignore_difficult_instances
                    width height).
Local Abbreviation loop := (TfRecords.objects_loop label_map_dict ignore_difficult_instances
                    width height).
Local Abbreviation expected := (Voc.expected_lists label_map_dict ignore_difficult_instances
                        width height).

Lemma append_lists_nil (st : TfRecords.object_lists) :
  Voc.append_lists st TfRecords.no_objects = st.
Proof.
  destruct st. unfold Voc.append_lists. cbn. rewrite !app_nil_r. reflexivity.
Qed.

Lemma append_lists_assoc (a b c : TfRecords.object_lists) :
  Voc.append_lists (Voc.append_lists a b) c = Voc.append_lists a (Voc.append_lists b c).
Proof.
  unfold Voc.append_lists. cbn. rewrite <- !app_assoc. reflexivity.
Qed.

(** One turn of the loop either leaves the lists alone, when the object is
    not retained, or appends the fields of the object to them. *)
Lemma object_step_Ok (st st' : TfRecords.object_lists) (obj : json) :
  step st obj = Ok st' ->
  st' = Voc.append_lists st (expected [obj]).
Proof.
  unfold TfRecords.object_step, Voc.expected_lists.
  cbn [List.filter]. unfold Voc.retained, Voc.is_unspecified, Voc.is_difficult.
  intros Hstep.
  destruct (getitem obj "difficult") as [d|e] eqn:Ed; [|discriminate].
  run in Hstep. run.
  destruct (TfRecords.equals_str d "Unspecified") eqn:Eu.
  { inversion Hstep; subst. cbn. symmetry. apply append_lists_nil. }
  destruct (TfRecords.int_of d) as [z|e] eqn:Ez; [|discriminate].
  run in Hstep.
  destruct (ignore_difficult_instances && negb (z =? 0)%Z) eqn:Ei.
  { inversion Hstep; subst. cbn. symmetry. apply append_lists_nil. }
  cbn [negb andb map].
  unfold Voc.obj_coord, Voc.obj_class, Voc.obj_name, Voc.obj_truncated,
    Voc.obj_pose, Voc.obj_difficult, Voc.is_difficult.
  rewrite Ed. run. rewrite Ez.
  destruct (TfRecords.bndbox_coord obj "xmin" width) as [x0|e]; [|discriminate].
  destruct (TfRecords.bndbox_coord obj "ymin" height) as [y0|e]; [|discriminate].
  destruct (TfRecords.bndbox_coord obj "xmax" width) as [x1|e]; [|discriminate].
  destruct (TfRecords.bndbox_coord obj "ymax" height) as [y1|e]; [|discriminate].
  run in Hstep.
  destruct (getitem obj "name") as [[| | | |name| |]|e]; try discriminate.
  run in Hstep.
  destruct (label_map_dict !! name) as [class|]; [|discriminate].
  run in Hstep. cbn [default].
  destruct (getitem obj "truncated") as [t|e]; [|discriminate].
  run in Hstep. run.
  destruct (TfRecords.int_of t) as [tz|e]; [|discriminate].
  run in Hstep.
  destruct (getitem obj "pose") as [[| | | |pose| |]|e]; try discriminate.
  run in Hstep.
  inversion Hstep; subst. reflexivity.
Qed.

Lemma expected_lists_cons (obj : json) (objs : list json) :
  expected (obj :: objs) = Voc.append_lists (expected [obj]) (expected objs).
Proof.
  unfold Voc.expected_lists, Voc.append_lists. cbn [List.filter].
  destruct (Voc.retained ignore_difficult_instances obj); cbn; reflexivity.
Qed.

(** The loop, when it ends without an exception, has appended the expected
    lists. *)
Lemma objects_loop_Ok (objs : list json) (st st' : TfRecords.object_lists) :
  loop objs st = Ok st' ->
  st' = Voc.append_lists st (expected objs).
Proof.
  revert st st'. induction objs as [|obj objs IH]; intros st st' Hloop.
  - cbn in Hloop. inversion Hloop; subst. symmetry. apply append_lists_nil.
  - cbn [TfRecords.objects_loop] in Hloop.
    apply bind_Ok_inv in Hloop. destruct Hloop as (st1 & Hstep & Hrest).
    apply object_step_Ok in Hstep. apply IH in Hrest. subst.
    rewrite (expected_lists_cons obj objs), append_lists_assoc. reflexivity.
Qed.

(** A retained object whose label is not in the label map stops the loop. *)
Lemma object_step_unknown_label (st : TfRecords.object_lists) (obj : json) :
  Voc.retained ignore_difficult_instances obj = true ->
  label_map_dict !! Voc.obj_name obj = None ->
  exists e, step st obj = Raise e.
Proof.
  unfold TfRecords.object_step, Voc.retained, Voc.is_unspecified, Voc.is_difficult,
    Voc.obj_name.
  intros Hret Hname.
  destruct (getitem obj "difficult") as [d|e]; [|eauto].
  rewrite !bind_Ok in *.
  destruct (TfRecords.equals_str d "Unspecified"); [discriminate|].
  destruct (TfRecords.int_of d) as [z|e]; [|eauto].
  rewrite bind_Ok.
  destruct (ignore_difficult_instances && negb (z =? 0)%Z); [discriminate|].
  destruct (TfRecords.bndbox_coord obj "xmin" width) as [x0|e]; [|eauto].
  destruct (TfRecords.bndbox_coord obj "ymin" height) as [y0|e]; [|eauto].
  destruct (TfRecords.bndbox_coord obj "xmax" width) as [x1|e]; [|eauto].
  destruct (TfRecords.bndbox_coord obj "ymax" height) as [y1|e]; [|eauto].
  rewrite !bind_Ok.
  destruct (getitem obj "name") as [[| | | |name| |]|e]; eauto.
  rewrite bind_Ok. cbn [as_str_method]. rewrite bind_Ok, Hname. eauto.
Qed.

Lemma objects_loop_unknown_label (objs : list json) (st : TfRecords.object_lists)
    (obj : json) :
  In obj objs ->
  Voc.retained ignore_difficult_instances obj = true ->
  label_map_dict !! Voc.obj_name obj = None ->
  exists e, loop objs st = Raise e.
Proof.
  intros Hin Hret Hname. revert st.
  induction objs as [|o objs IH]; intros st; [destruct Hin|].
  cbn [TfRecords.objects_loop].
  destruct (step st o) as [st1|e] eqn:Hstep.
  - rewrite bind_Ok. destruct Hin as [->|Hin].
    + destruct (object_step_unknown_label st obj Hret Hname) as [e He]. congruence.
    + apply IH. assumption.
  - eauto.
Qed.

(** The walk runs the loop over the objects of the annotation. *)
Lemma walk_objects_Ok (data : json) (st : TfRecords.object_lists) :
  TfRecords.walk_objects data label_map_dict ignore_difficult_instances width height
    = Ok st ->
  loop (Voc.data_objects data) TfRecords.no_objects = Ok st.
Proof.
  unfold TfRecords.walk_objects, Voc.data_objects.
  destruct (py_contains_str "object" data) as [[|]|e]; try discriminate.
  - rewrite bind_Ok.
    destruct (getitem data "object") as [v|e]; [|discriminate].
    rewrite !bind_Ok.
    destruct (py_iter v) as [l|e]; [|discriminate].
    rewrite bind_Ok. tauto.
  - rewrite bind_Ok. cbn. tauto.
Qed.

Lemma walk_objects_nonempty (data : json) (obj : json) :
  In obj (Voc.data_objects data) ->
  TfRecords.walk_objects data label_map_dict ignore_difficult_instances width height
  = loop (Voc.data_objects data) TfRecords.no_objects.
Proof.
  unfold TfRecords.walk_objects, Voc.data_objects.
  destruct (py_contains_str "object" data) as [[|]|e]; try (intros []).
  rewrite bind_Ok.
  destruct (getitem data "object") as [v|e]; [|intros []].
  rewrite !bind_Ok.
  destruct (py_iter v) as [l|e]; [|intros []].
  rewrite bind_Ok. reflexivity.
Qed.

End ObjectWalk.

(** ** The feature record ([dict_to_tf_example]) *)

(** A record is returned only after the walk over the objects has ended
    without an exception, and its per-object lists are those of the walk. *)
Lemma dict_to_tf_example_Ok `{Runtime} (fs : filesystem) (data : json)
    (image_data_directory : string) (label_map_dict : gmap string Z)
    (ignore_difficult_instances : bool) (ex : TfRecords.tf_example) :
  TfRecords.dict_to_tf_example fs data image_data_directory label_map_dict
    ignore_difficult_instances = Ok ex ->
  exists st : TfRecords.object_lists,
    TfRecords.walk_objects data label_map_dict ignore_difficult_instances
      (TfRecords.image_width ex) (TfRecords.image_height ex) = Ok st
    /\ TfRecords.image_object_bbox_xmin ex = TfRecords.xmin st
    /\ TfRecords.image_object_bbox_xmax ex = TfRecords.xmax st
    /\ TfRecords.image_object_bbox_ymin ex = TfRecords.ymin st
    /\ TfRecords.image_object_bbox_ymax ex = TfRecords.ymax st
    /\ TfRecords.image_object_class_text ex = TfRecords.classes_text st
    /\ TfRecords.image_object_class_label ex = TfRecords.classes st
    /\ TfRecords.image_object_difficult ex = TfRecords.difficult_obj st
    /\ TfRecords.image_object_truncated ex = TfRecords.truncated st
    /\ TfRecords.image_object_view ex = TfRecords.poses st.
Proof.
  unfold TfRecords.dict_to_tf_example. intros Hex.
  repeat match type of Hex with
    | (?m ≫= _) = Ok _ =>
        let a := fresh "a" in let E := fresh "E" in
        apply bind_Ok_inv in Hex; destruct Hex as (a & E & Hex)
    | (if ?c then _ else _) = Ok _ => destruct c; [discriminate|]
    end.
  inversion Hex; subst. cbn.
  eexists. split; [eassumption|]. repeat split.
Qed.

Lemma dict_to_tf_example_lists `{Runtime} (fs : filesystem) (data : json)
    (image_data_directory : string) (label_map_dict : gmap string Z)
    (ignore_difficult_instances : bool) (ex : TfRecords.tf_example) :
  TfRecords.dict_to_tf_example fs data image_data_directory label_map_dict
    ignore_difficult_instances = Ok ex ->
  let st := Voc.expected_lists label_map_dict ignore_difficult_instances
              (TfRecords.image_width ex) (TfRecords.image_height ex)
              (Voc.data_objects data) in
  TfRecords.image_object_bbox_xmin ex = TfRecords.xmin st
  /\ TfRecords.image_object_bbox_xmax ex = TfRecords.xmax st
  /\ TfRecords.image_object_bbox_ymin ex = TfRecords.ymin st
  /\ TfRecords.image_object_bbox_ymax ex = TfRecords.ymax st
  /\ TfRecords.image_object_class_text ex = TfRecords.classes_text st
  /\ TfRecords.image_object_class_label ex = TfRecords.classes st
  /\ TfRecords.image_object_difficult ex = TfRecords.difficult_obj st
  /\ TfRecords.image_object_truncated ex = TfRecords.truncated st
  /\ TfRecords.image_object_view ex = TfRecords.poses st.
Proof.
  intros Hex. apply dict_to_tf_example_Ok in Hex.
  destruct Hex as (st0 & Hwalk & Hlists).
  apply walk_objects_Ok, objects_loop_Ok in Hwalk. subst st0.
  exact Hlists.
Qed.

(** The objects split three ways: retained, dropped for an "Unspecified"
    difficulty, dropped as difficult. *)
Lemma retained_count `{Runtime} (ignore_difficult_instances : bool) (objs : list json) :
  (List.length (List.filter (Voc.retained ignore_difficult_instances) objs)
   + List.length (List.filter Voc.is_unspecified objs)
   + List.length
       (List.filter
          (fun o => negb (Voc.is_unspecified o)
                    && (ignore_difficult_instances && Voc.is_difficult o))
          objs)
   = List.length objs)%nat.
Proof.
  induction objs as [|o objs IH]; [reflexivity|].
  cbn [List.filter]. unfold Voc.retained at 1.
  destruct (Voc.is_unspecified o), (ignore_difficult_instances && Voc.is_difficult o);
    cbn [negb andb List.length]; lia.
Qed.

(** C4.  In the record [dict_to_tf_example] returns, no retained object has
    the difficulty "Unspecified", and with [ignore_difficult_instances] no
    retained object is difficult; the lists of the record hold the fields of
    the retained objects only.  Their number is the number of objects minus
    the number of objects of "Unspecified" difficulty, minus, with
    [ignore_difficult_instances], the number of difficult objects. *)
Theorem unspecified_objects_are_dropped `{Runtime} (fs : filesystem) (data : json)
    (image_data_directory : string) (label_map_dict : gmap string Z)
    (ignore_difficult_instances : bool) (ex : TfRecords.tf_example) :
  TfRecords.dict_to_tf_example fs data image_data_directory label_map_dict
    ignore_difficult_instances = Ok ex ->
  let objs := Voc.data_objects data in
  let kept := List.filter (Voc.retained ignore_difficult_instances) objs in
  let unspecified := List.filter Voc.is_unspecified objs in
  let difficult :=
    List.filter (fun o => negb (Voc.is_unspecified o) && Voc.is_difficult o) objs in
  (forall obj, In obj kept -> Voc.is_unspecified obj = false)
  /\ (ignore_difficult_instances = true ->
      forall obj, In obj kept -> Voc.is_difficult obj = false)
  /\ TfRecords.image_object_class_text ex = map Voc.obj_name kept
  /\ TfRecords.image_object_difficult ex = map Voc.obj_difficult kept
  /\ (ignore_difficult_instances = false ->
      List.length (TfRecords.image_object_class_text ex)
      = (List.length objs - List.length unspecified)%nat)
  /\ (ignore_difficult_instances = true ->
      List.length (TfRecords.image_object_class_text ex)
      = (List.length objs - List.length unspecified - List.length difficult)%nat).
Proof.
  intros Hex objs kept unspecified difficult.
  apply dict_to_tf_example_lists in Hex. cbv zeta in Hex.
  destruct Hex as (_ & _ & _ & _ & Htext & _ & Hdiff & _ & _).
  cbn [Voc.expected_lists TfRecords.classes_text TfRecords.difficult_obj] in Htext, Hdiff.
  fold objs in Htext, Hdiff. fold kept in Htext, Hdiff.
  pose proof (retained_count ignore_difficult_instances objs) as Hcount.
  fold objs in Hcount. fold kept in Hcount. fold unspecified in Hcount.
  split; [|split; [|split; [|split; [|split]]]].
  - intros obj Hin. apply filter_In in Hin. destruct Hin as [_ Hret].
    unfold Voc.retained in Hret. apply andb_true_iff in Hret.
    destruct Hret as [Hret _]. apply negb_true_iff in Hret. exact Hret.
  - intros -> obj Hin. apply filter_In in Hin. destruct Hin as [_ Hret].
    unfold Voc.retained in Hret. apply andb_true_iff in Hret.
    destruct Hret as [_ Hret]. apply negb_true_iff in Hret. exact Hret.
  - exact Htext.
  - exact Hdiff.
  - intros ->. rewrite Htext, length_map.
    assert (List.length
              (List.filter (fun o => negb (Voc.is_unspecified o)
                                     && (false && Voc.is_difficult o)) objs) = 0%nat)
      as Hnone.
    { clear. induction objs as [|o l IH]; [reflexivity|].
      cbn [List.filter]. rewrite andb_false_r. exact IH. }
    rewrite Hnone in Hcount. lia.
  - intros ->. rewrite Htext, length_map.
    cbn [andb] in Hcount. fold difficult in Hcount. lia.
Qed.

(** Three objects: the first of "Unspecified" difficulty, the second
    difficult, the third not.  Without [ignore_difficult_instances] the
    second and the third are retained. *)
Lemma unspecified_objects_are_dropped_witness :
  exists ex : TfRecords.tf_example,
    @TfRecords.dict_to_tf_example Example.scan_runtime Example.scan_files
      (Example.parsed_annotation Example.three_objects) "images/Total"
      Example.cat_dog false = Ok ex
    /\ TfRecords.image_object_class_text ex = ["dog"; "cat"]
    /\ TfRecords.image_object_difficult ex = [1; 0]
    /\ List.length (TfRecords.image_object_class_text ex) = (3 - 1)%nat.
Proof.
  destruct (@TfRecords.dict_to_tf_example Example.scan_runtime Example.scan_files
              (Example.parsed_annotation Example.three_objects) "images/Total"
              Example.cat_dog false) as [ex|e] eqn:Hex; [|vm_compute in Hex; discriminate].
  exists ex. split; [reflexivity|].
  destruct (@unspecified_objects_are_dropped Example.scan_runtime _ _ _ _ _ _ Hex)
    as (_ & _ & Htext & Hdiff & Hlen & _).
  split; [exact Htext|]. split; [exact Hdiff|]. exact (Hlen eq_refl).
Defined.

(** C9.  In the record [dict_to_tf_example] returns, the per-object lists
    (the four box corners, class text, class id, difficult flag, truncated
    flag, pose) all have the length of the list of retained objects. *)
Theorem parallel_lists_have_the_retained_length `{Runtime} (fs : filesystem)
    (data : json) (image_data_directory : string) (label_map_dict : gmap string Z)
    (ignore_difficult_instances : bool) (ex : TfRecords.tf_example) :
  TfRecords.dict_to_tf_example fs data image_data_directory label_map_dict
    ignore_difficult_instances = Ok ex ->
  let n := List.length (List.filter (Voc.retained ignore_difficult_instances)
                          (Voc.data_objects data)) in
  List.length (TfRecords.image_object_bbox_xmin ex) = n
  /\ List.length (TfRecords.image_object_bbox_ymin ex) = n
  /\ List.length (TfRecords.image_object_bbox_xmax ex) = n
  /\ List.length (TfRecords.image_object_bbox_ymax ex) = n
  /\ List.length (TfRecords.image_object_class_text ex) = n
  /\ List.length (TfRecords.image_object_class_label ex) = n
  /\ List.length (TfRecords.image_object_difficult ex) = n
  /\ List.length (TfRecords.image_object_truncated ex) = n
  /\ List.length (TfRecords.image_object_view ex) = n.
Proof.
  intros Hex n. apply dict_to_tf_example_lists in Hex. cbv zeta in Hex.
  destruct Hex as (-> & -> & -> & -> & -> & -> & -> & -> & ->).
  cbn [Voc.expected_lists TfRecords.xmin TfRecords.ymin TfRecords.xmax TfRecords.ymax
       TfRecords.classes TfRecords.classes_text TfRecords.truncated TfRecords.poses
       TfRecords.difficult_obj].
  rewrite !length_map. repeat split.
Qed.

(** The three objects again, now with [ignore_difficult_instances]: only
    the third is retained, and every list has one entry. *)
Lemma parallel_lists_have_the_retained_length_witness :
  exists ex : TfRecords.tf_example,
    @TfRecords.dict_to_tf_example Example.scan_runtime Example.scan_files
      (Example.parsed_annotation Example.three_objects) "images/Total"
      Example.cat_dog true = Ok ex
    /\ List.length (TfRecords.image_object_bbox_xmin ex) = 1%nat
    /\ List.length (TfRecords.image_object_bbox_ymin ex) = 1%nat
    /\ List.length (TfRecords.image_object_bbox_xmax ex) = 1%nat
    /\ List.length (TfRecords.image_object_bbox_ymax ex) = 1%nat
    /\ List.length (TfRecords.image_object_class_text ex) = 1%nat
    /\ List.length (TfRecords.image_object_class_label ex) = 1%nat
    /\ List.length (TfRecords.image_object_difficult ex) = 1%nat
    /\ List.length (TfRecords.image_object_truncated ex) = 1%nat
    /\ List.length (TfRecords.image_object_view ex) = 1%nat.
Proof.
  destruct (@TfRecords.dict_to_tf_example Example.scan_runtime Example.scan_files
              (Example.parsed_annotation Example.three_objects) "images/Total"
              Example.cat_dog true) as [ex|e] eqn:Hex; [|vm_compute in Hex; discriminate].
  exists ex. split; [reflexivity|].
  exact (@parallel_lists_have_the_retained_length Example.scan_runtime _ _ _ _ _ _ Hex).
Defined.

(** ** Unknown labels *)

Lemma dict_to_tf_example_walk_raises `{Runtime} (fs : filesystem) (data : json)
    (image_data_directory : string) (label_map_dict : gmap string Z)
    (ignore_difficult_instances : bool) :
  (forall width height, exists e,
     TfRecords.walk_objects data label_map_dict ignore_difficult_instances
       width height = Raise e) ->
  exists e,
    TfRecords.dict_to_tf_example fs data image_data_directory label_map_dict
      ignore_difficult_instances = Raise e.
Proof.
  intros Hwalk.
  destruct (TfRecords.dict_to_tf_example fs data image_data_directory label_map_dict
              ignore_difficult_instances) as [ex|e] eqn:Hex; [|eauto].
  apply dict_to_tf_example_Ok in Hex. destruct Hex as (st & Hst & _).
  destruct (Hwalk (TfRecords.image_width ex) (TfRecords.image_height ex)) as [e He].
  congruence.
Qed.

(** The run stops at the first file that raises; the writer has received
    at most the records of the files before it. *)
Lemma main_loop_stops `{Runtime} (fs : filesystem) (pre post : list string)
    (file : string) (annotations_dir image_data_dir : string)
    (label_map_dict : gmap string Z) (ignore_difficult_instances : bool)
    (xml_str : string) (xml : element) (data : json) (e : exn)
    (written : list TfRecords.tf_example) :
  fs_read fs (path_join annotations_dir file) = Ok xml_str ->
  etree_fromstring xml_str = Some xml ->
  Voc.voc_data xml = Ok data ->
  TfRecords.dict_to_tf_example fs data image_data_dir label_map_dict
    ignore_difficult_instances = Raise e ->
  exists e' written',
    TfRecords.main_loop fs (pre ++ file :: post) annotations_dir image_data_dir
      label_map_dict ignore_difficult_instances written = (written', Some e')
    /\ (List.length written' <= List.length written + List.length pre)%nat.
Proof.
  intros Hread Hparse Hdata Hraise. revert written.
  induction pre as [|f pre IH]; intros written.
  - cbn [app TfRecords.main_loop]. unfold TfRecords.main_step.
    rewrite Hread. run. rewrite Hparse. run.
    unfold Voc.voc_data in Hdata. rewrite Hdata. run. rewrite Hraise.
    exists e, written. split; [reflexivity | cbn; lia].
  - cbn [app TfRecords.main_loop].
    destruct (TfRecords.main_step fs f annotations_dir image_data_dir label_map_dict
                ignore_difficult_instances) as [ex|e0].
    + destruct (IH (written ++ [ex])%list) as (e' & written' & E & L).
      exists e', written'. split; [exact E|].
      rewrite length_app in L. cbn [List.length] in *. lia.
    + exists e0, written. split; [reflexivity | cbn; lia].
Qed.

(** C6.  When an object that is retained has a label that is not in the
    label map, [dict_to_tf_example] raises and returns no record; the
    exception is the [KeyError] of the lookup when the steps before it
    succeed; and [main] ends with the exception, the writer having received
    no record for that file or a later one. *)
Theorem unknown_label_fails_the_run `{Runtime} (fs : filesystem) (data obj : json)
    (label_map_dict : gmap string Z) (ignore_difficult_instances : bool) :
  In obj (Voc.data_objects data) ->
  Voc.retained ignore_difficult_instances obj = true ->
  label_map_dict !! Voc.obj_name obj = None ->
  (forall image_data_directory, exists e,
     TfRecords.dict_to_tf_example fs data image_data_directory label_map_dict
       ignore_difficult_instances = Raise e)
  /\ (forall width height st d z x0 y0 x1 y1 name,
        getitem obj "difficult" = Ok d ->
        TfRecords.int_of d = Ok z ->
        TfRecords.bndbox_coord obj "xmin" width = Ok x0 ->
        TfRecords.bndbox_coord obj "ymin" height = Ok y0 ->
        TfRecords.bndbox_coord obj "xmax" width = Ok x1 ->
        TfRecords.bndbox_coord obj "ymax" height = Ok y1 ->
        getitem obj "name" = Ok (JStr name) ->
        TfRecords.object_step label_map_dict ignore_difficult_instances
          width height st obj = Raise (KeyError name))
  /\ (forall pre file post annotations_dir image_data_dir xml_str xml,
        fs_read fs (path_join annotations_dir file) = Ok xml_str ->
        etree_fromstring xml_str = Some xml ->
        Voc.voc_data xml = Ok data ->
        exists e written,
          TfRecords.main fs (pre ++ file :: post) annotations_dir image_data_dir
            label_map_dict ignore_difficult_instances = (written, Some e)
          /\ (List.length written <= List.length pre)%nat).
Proof.
  intros Hin Hret Hname.
  assert (forall image_data_directory, exists e,
            TfRecords.dict_to_tf_example fs data image_data_directory label_map_dict
              ignore_difficult_instances = Raise e) as Hraise.
  { intros dir. apply dict_to_tf_example_walk_raises. intros width height.
    rewrite (walk_objects_nonempty _ _ _ _ _ _ Hin).
    apply (objects_loop_unknown_label _ _ _ _ _ _ obj); assumption. }
  split; [exact Hraise|]. split.
  - intros width height st d z x0 y0 x1 y1 name Hd Hz Hx0 Hy0 Hx1 Hy1 Hn.
    unfold Voc.retained, Voc.is_unspecified, Voc.is_difficult in Hret.
    unfold Voc.obj_name in Hname.
    rewrite Hd in Hret. run in Hret. rewrite Hz in Hret. rewrite Hn in Hname.
    apply andb_true_iff in Hret. destruct Hret as [Hu Hi].
    apply negb_true_iff in Hu, Hi.
    unfold TfRecords.object_step.
    rewrite Hd. run. rewrite Hu, Hz. run. rewrite Hi.
    rewrite Hx0, Hy0, Hx1, Hy1. run. rewrite Hn. run. rewrite Hname. reflexivity.
  - intros pre file post annotations_dir image_data_dir xml_str xml Hread Hparse Hdata.
    destruct (Hraise image_data_dir) as [e He].
    destruct (main_loop_stops fs pre post file annotations_dir image_data_dir
                label_map_dict ignore_difficult_instances xml_str xml data e []
                Hread Hparse Hdata He) as (e' & written & E & L).
    exists e', written. split; [exact E | exact L].
Qed.

(** An object labelled "fox" and a label map of cats and dogs. *)
Lemma unknown_label_fails_the_run_witness :
  (exists e,
     @TfRecords.dict_to_tf_example Example.scan_runtime Example.scan_files
       (Example.parsed_annotation
          [Example.parsed_object "fox" "Left" "0" "0" "25" "75" "50" "150"])
       "images/Total" Example.cat_dog false = Raise e)
  /\ @TfRecords.object_step Example.scan_runtime Example.cat_dog false 100 200
       TfRecords.no_objects
       (Example.parsed_object "fox" "Left" "0" "0" "25" "75" "50" "150")
     = Raise (KeyError "fox").
Proof.
  destruct (@unknown_label_fails_the_run Example.scan_runtime Example.scan_files
              (Example.parsed_annotation
                 [Example.parsed_object "fox" "Left" "0" "0" "25" "75" "50" "150"])
              (Example.parsed_object "fox" "Left" "0" "0" "25" "75" "50" "150")
              Example.cat_dog false)
    as (Hraise & Hkey & _).
  - left. reflexivity.
  - reflexivity.
  - reflexivity.
  - split; [apply Hraise|].
    apply (Hkey 100 200 TfRecords.no_objects (JStr "0") 0 (25 / 100)%Q (50 / 200)%Q
             (75 / 100)%Q (150 / 200)%Q "fox"); reflexivity.
Defined.

(** ** The documents written by [convert_to_PascalVOC] *)

Lemma append_cons (x : ascii) (a b : string) : String x a ++ b = String x (a ++ b).
Proof. reflexivity. Qed.

Lemma append_assoc (a b c : string) : (a ++ b) ++ c = a ++ (b ++ c).
Proof.
  induction a as [|x a IH]; [reflexivity|].
  rewrite !append_cons, IH. reflexivity.
Qed.











(** ** Reading a document back ([recursive_parse_xml_to_dict]) *)










(** ** From JSON to feature records *)



(** ** The round trip *)

Section RoundTrip.

Context `{Runtime}.
Hypothesis int_of_empty : py_int "" = None.
Hypothesis float_of_empty : py_float "" = None.




Variable label_map_dict : gmap string Z.
Variable ignore_difficult_instances : bool.
Variables width height : Z.
Variables pose truncated difficult occluded : string.
Variables t d : Z.

Hypothesis width_nonzero : width <> 0.
Hypothesis height_nonzero : height <> 0.
Hypothesis pose_nonempty : pose <> "".
Hypothesis difficult_specified : difficult <> "Unspecified".
Hypothesis difficult_int : py_int difficult = Some d.
Hypothesis not_ignored : ignore_difficult_instances = true -> d = 0.
Hypothesis truncated_int : py_int truncated = Some t.





End RoundTrip.







(** * Further properties of the converters *)

(** ** The box of an object, continued *)

(** The box computed for four [[x, y]] points. *)
Lemma bbx_extents_four (bbx_data : json) (width height : Z)
    (x0 y0 x1 y1 x2 y2 x3 y3 : number) :
  getitem bbx_data "points"
    = Ok (JList [Points.pair x0 y0; Points.pair x1 y1;
                 Points.pair x2 y2; Points.pair x3 y3]) ->
  Dataturks.bbx_extents bbx_data width height
  = Ok (Dataturks.Box (number_mul (Int width) (py_min4 x0 x1 x2 x3))
                      (number_mul (Int height) (py_min4 y0 y1 y2 y3))
                      (number_mul (Int width) (py_max4 x0 x1 x2 x3))
                      (number_mul (Int height) (py_max4 y0 y1 y2 y3))).
Proof.
  intros Hpoints. unfold Dataturks.bbx_extents, Dataturks.point_coord.
  rewrite Hpoints. run. unfold Points.pair. run.
  rewrite !as_number_json_of_number. run. reflexivity.
Qed.

(** The box computed for two [{"x": x, "y": y}] points. *)
Lemma bbx_extents_two (bbx_data : json) (width height : Z) (x0 y0 x1 y1 : number) :
  getitem bbx_data "points" = Ok (JList [Points.xy x0 y0; Points.xy x1 y1]) ->
  Dataturks.bbx_extents bbx_data width height
  = Ok (Dataturks.Box (Int (number_int (number_mul x0 (Int width))))
                      (Int (number_int (number_mul y0 (Int height))))
                      (Int (number_int (number_mul x1 (Int width))))
                      (Int (number_int (number_mul y1 (Int height))))).
Proof.
  intros Hpoints. unfold Dataturks.bbx_extents, Dataturks.point_field.
  rewrite Hpoints. run. unfold Points.xy. steps.
  rewrite !as_number_json_of_number. run. reflexivity.
Qed.

Lemma Qmin4_bounds (a b c d lo hi : Q) :
  (lo <= a <= hi)%Q -> (lo <= b <= hi)%Q -> (lo <= c <= hi)%Q -> (lo <= d <= hi)%Q ->
  (lo <= Points.Qmin4 a b c d <= hi)%Q.
Proof.
  intros Ha Hb Hc Hd. unfold Points.Qmin4. min4_facts a b c d; lra.
Qed.

Lemma Qmax4_bounds (a b c d lo hi : Q) :
  (lo <= a <= hi)%Q -> (lo <= b <= hi)%Q -> (lo <= c <= hi)%Q -> (lo <= d <= hi)%Q ->
  (lo <= Points.Qmax4 a b c d <= hi)%Q.
Proof.
  intros Ha Hb Hc Hd. unfold Points.Qmax4. max4_facts a b c d; lra.
Qed.

Lemma scale_bounds (w : Z) (a : Q) :
  0 <= w -> (0 <= a <= 1)%Q -> (0 <= inject_Z w * a <= inject_Z w)%Q.
Proof.
  intros Hw Ha.
  assert (0 <= inject_Z w)%Q as H0.
  { change 0%Q with (inject_Z 0). rewrite <- Zle_Qle. exact Hw. }
  split; nra.
Qed.

(** X1.  When the four points of a rectangle have fractional coordinates
    (between 0 and 1), the box [get_xml_for_bbx] computes lies within the
    image: [0 <= xmin <= xmax <= width] and [0 <= ymin <= ymax <= height]. *)
Theorem four_point_box_within_image
    (bbx_data : json) (width height : Z) (x0 y0 x1 y1 x2 y2 x3 y3 : number) :
  getitem bbx_data "points"
    = Ok (JList [Points.pair x0 y0; Points.pair x1 y1;
                 Points.pair x2 y2; Points.pair x3 y3]) ->
  0 <= width ->
  0 <= height ->
  Forall Geometry.fractional [x0; y0; x1; y1; x2; y2; x3; y3] ->
  exists b : Dataturks.box,
    Dataturks.bbx_extents bbx_data width height = Ok b
    /\ (0 <= number_value (Dataturks.xmin b))%Q
    /\ (number_value (Dataturks.xmin b) <= number_value (Dataturks.xmax b))%Q
    /\ (number_value (Dataturks.xmax b) <= inject_Z width)%Q
    /\ (0 <= number_value (Dataturks.ymin b))%Q
    /\ (number_value (Dataturks.ymin b) <= number_value (Dataturks.ymax b))%Q
    /\ (number_value (Dataturks.ymax b) <= inject_Z height)%Q.
Proof.
  intros Hpoints Hw Hh Hfrac.
  rewrite (bbx_extents_four _ _ _ _ _ _ _ _ _ _ _ Hpoints).
  eexists. split; [reflexivity|].
  cbn [Dataturks.xmin Dataturks.xmax Dataturks.ymin Dataturks.ymax].
  rewrite !number_mul_value, !py_min4_value, !py_max4_value.
  cbn [number_value].
  repeat match goal with
         | H : Forall _ (_ :: _) |- _ => inversion H; subst; clear H
         end.
  unfold Geometry.fractional in *.
  pose proof (Qmin4_bounds (number_value x0) (number_value x1) (number_value x2)
                (number_value x3) 0 1) as Hxmin.
  pose proof (Qmax4_bounds (number_value x0) (number_value x1) (number_value x2)
                (number_value x3) 0 1) as Hxmax.
  pose proof (Qmin4_bounds (number_value y0) (number_value y1) (number_value y2)
                (number_value y3) 0 1) as Hymin.
  pose proof (Qmax4_bounds (number_value y0) (number_value y1) (number_value y2)
                (number_value y3) 0 1) as Hymax.
  pose proof (Qmin4_le_Qmax4 (number_value x0) (number_value x1) (number_value x2)
                (number_value x3)) as Hx.
  pose proof (Qmin4_le_Qmax4 (number_value y0) (number_value y1) (number_value y2)
                (number_value y3)) as Hy.
  repeat split;
    try (apply scale_bounds; [assumption | auto]);
    try (apply scale_le; assumption).
Qed.

(** A quadrilateral on a 640 x 480 image. *)
Lemma four_point_box_within_image_witness :
  exists b : Dataturks.box,
    Dataturks.bbx_extents
      (JDict [("points", JList [Points.pair (Float 0.75) (Float 0.5);
                                Points.pair (Float 0.5) (Float 0.25);
                                Points.pair (Float 0.25) (Float 0.5);
                                Points.pair (Float 0.5) (Float 0.75)])])
      640 480 = Ok b
    /\ (0 <= number_value (Dataturks.xmin b))%Q
    /\ (number_value (Dataturks.xmin b) <= number_value (Dataturks.xmax b))%Q
    /\ (number_value (Dataturks.xmax b) <= inject_Z 640)%Q
    /\ (0 <= number_value (Dataturks.ymin b))%Q
    /\ (number_value (Dataturks.ymin b) <= number_value (Dataturks.ymax b))%Q
    /\ (number_value (Dataturks.ymax b) <= inject_Z 480)%Q.
Proof.
  apply (four_point_box_within_image _ 640 480
           (Float 0.75) (Float 0.5) (Float 0.5) (Float 0.25)
           (Float 0.25) (Float 0.5) (Float 0.5) (Float 0.75)).
  - reflexivity.
  - lia.
  - lia.
  - repeat constructor; vm_compute; discriminate.
Defined.

Lemma Qtrunc_inject_Z (z : Z) : Points.Qtrunc (inject_Z z) = z.
Proof. symmetry. exact (number_int_trunc (Int z)). Qed.

Lemma scaled_int_bounds (x : number) (w : Z) :
  0 <= w -> Geometry.fractional x ->
  0 <= number_int (number_mul x (Int w)) <= w.
Proof.
  intros Hw [H0 H1].
  assert (0 <= inject_Z w)%Q as Qw.
  { change 0%Q with (inject_Z 0). rewrite <- Zle_Qle. exact Hw. }
  rewrite number_int_trunc, (Qtrunc_comp _ _ (number_mul_value _ _)).
  cbn [number_value]. split.
  - rewrite <- (Qtrunc_inject_Z 0) at 1. apply Qtrunc_le.
    change (inject_Z 0) with 0%Q. nra.
  - rewrite <- (Qtrunc_inject_Z w) at 2. apply Qtrunc_le. nra.
Qed.

Lemma scaled_int_le (x x' : number) (w : Z) :
  0 <= w -> (number_value x <= number_value x')%Q ->
  number_int (number_mul x (Int w)) <= number_int (number_mul x' (Int w)).
Proof.
  intros Hw Hx.
  assert (0 <= inject_Z w)%Q as Qw.
  { change 0%Q with (inject_Z 0). rewrite <- Zle_Qle. exact Hw. }
  rewrite !number_int_trunc, !(Qtrunc_comp _ _ (number_mul_value _ _)).
  cbn [number_value]. apply Qtrunc_le. nra.
Qed.

(** X2.  For two points [{"x": x, "y": y}] with fractional coordinates the
    box [get_xml_for_bbx] computes has integer extents within the image;
    when point 0 is the top-left and point 1 the bottom-right corner, as the
    comment in the source says, the box is ordered. *)
Theorem two_point_box_within_image
    (bbx_data : json) (width height : Z) (x0 y0 x1 y1 : number) :
  getitem bbx_data "points" = Ok (JList [Points.xy x0 y0; Points.xy x1 y1]) ->
  0 <= width ->
  0 <= height ->
  Forall Geometry.fractional [x0; y0; x1; y1] ->
  exists xmin ymin xmax ymax : Z,
    Dataturks.bbx_extents bbx_data width height
      = Ok (Dataturks.Box (Int xmin) (Int ymin) (Int xmax) (Int ymax))
    /\ 0 <= xmin <= width /\ 0 <= xmax <= width
    /\ 0 <= ymin <= height /\ 0 <= ymax <= height
    /\ ((number_value x0 <= number_value x1)%Q -> xmin <= xmax)
    /\ ((number_value y0 <= number_value y1)%Q -> ymin <= ymax).
Proof.
  intros Hpoints Hw Hh Hfrac.
  rewrite (bbx_extents_two _ _ _ _ _ _ _ Hpoints).
  repeat match goal with
         | H : Forall _ (_ :: _) |- _ => inversion H; subst; clear H
         end.
  do 4 eexists. split; [reflexivity|].
  repeat split;
    try (apply scaled_int_bounds; assumption);
    try (intros; apply scaled_int_le; assumption).
Qed.

(** A text box on a 100 x 200 image. *)
Lemma two_point_box_within_image_witness :
  exists xmin ymin xmax ymax : Z,
    Dataturks.bbx_extents
      (JDict [("points", JList [Points.xy (Float 0.125) (Float 0.25);
                                Points.xy (Float 0.875) (Float 0.5)])])
      100 200
      = Ok (Dataturks.Box (Int xmin) (Int ymin) (Int xmax) (Int ymax))
    /\ 0 <= xmin <= 100 /\ 0 <= xmax <= 100
    /\ 0 <= ymin <= 200 /\ 0 <= ymax <= 200
    /\ ((0.125 <= 0.875)%Q -> xmin <= xmax)
    /\ ((0.25 <= 0.5)%Q -> ymin <= ymax).
Proof.
  apply (two_point_box_within_image _ 100 200
           (Float 0.125) (Float 0.25) (Float 0.875) (Float 0.5)).
  - reflexivity.
  - lia.
  - lia.
  - repeat constructor; vm_compute; discriminate.
Defined.







(** ** Names and paths *)










(** ** One item ([convert_to_PascalVOC]) *)





(** ** The objects of an annotation *)

Lemma strings_of_map (ss : list string) : Builder.strings_of (map JStr ss) = Some ss.
Proof.
  induction ss as [|s ss IH]; [reflexivity|].
  cbn [map Builder.strings_of]. rewrite IH. reflexivity.
Qed.















(** ** The path of the image *)

Lemma prefix_app (a r : string) : String.prefix a (a ++ r) = true.
Proof.
  induction a as [|c a IH]; [destruct r; reflexivity|].
  rewrite append_cons. cbn [String.prefix].
  destruct (ascii_dec c c); [exact IH | contradiction].
Qed.

Lemma prefix_app_inv (a s : string) :
  String.prefix a s = true -> exists r, s = a ++ r.
Proof.
  revert s. induction a as [|c a IH]; intros s Hp.
  - exists s. reflexivity.
  - destruct s as [|c' s]; [discriminate|]. cbn [String.prefix] in Hp.
    destruct (ascii_dec c c') as [->|]; [|discriminate].
    destruct (IH s Hp) as [r ->]. exists r. reflexivity.
Qed.

Lemma prefix_length (a s : string) :
  String.prefix a s = true -> (String.length a <= String.length s)%nat.
Proof.
  intros Hp. destruct (prefix_app_inv a s Hp) as [r ->].
  clear Hp. induction a as [|c a IH]; cbn [String.length]; [lia|].
  rewrite append_cons. cbn [String.length]. lia.
Qed.

Lemma str_contains_cons (sub : string) (c : ascii) (s : string) :
  str_contains sub (String c s)
  = String.prefix sub (String c s) || str_contains sub s.
Proof. cbn [str_contains]. destruct (String.prefix sub (String c s)); reflexivity. Qed.

(** [s.split(sep)[0]] is all of [s] when [sep] does not occur in it, and
    otherwise what comes before an occurrence of [sep]. *)
Lemma split_head_absent (sep s : string) :
  str_contains sep s = false -> split_head sep s = s.
Proof.
  induction s as [|c s IH]; intros Habs.
  - destruct sep; [discriminate | reflexivity].
  - rewrite str_contains_cons in Habs. apply orb_false_iff in Habs.
    destruct Habs as [Hp Hs]. cbn [split_head]. rewrite Hp, (IH Hs). reflexivity.
Qed.

Lemma split_head_present (sep s : string) :
  str_contains sep s = true ->
  exists rest, s = split_head sep s ++ sep ++ rest.
Proof.
  induction s as [|c s IH]; intros Hin.
  - destruct sep; [|discriminate]. exists "". reflexivity.
  - rewrite str_contains_cons in Hin. cbn [split_head].
    destruct (String.prefix sep (String c s)) eqn:Hp.
    + apply prefix_app_inv in Hp. destruct Hp as [r Hr]. exists r. exact Hr.
    + cbn [orb] in Hin. destruct (IH Hin) as [rest Hrest]. exists rest.
      rewrite append_cons. f_equal. exact Hrest.
Qed.

(** Deleting the occurrences of [old]: the characters of an occurrence are
    skipped, and a string without an occurrence is left as it is. *)
Lemma delete_skip (old a rest : string) :
  delete_occurrences old (a ++ rest) (String.length a)
  = delete_occurrences old rest 0.
Proof.
  induction a as [|c a IH]; [reflexivity|].
  rewrite append_cons. cbn [String.length delete_occurrences]. exact IH.
Qed.

Lemma delete_absent (old s : string) :
  str_contains old s = false -> delete_occurrences old s 0 = s.
Proof.
  induction s as [|c s IH]; intros Habs; [reflexivity|].
  rewrite str_contains_cons in Habs. apply orb_false_iff in Habs.
  destruct Habs as [Hp Hs]. cbn [delete_occurrences]. rewrite Hp, (IH Hs).
  reflexivity.
Qed.

Lemma delete_first (old rest : string) :
  old <> "" ->
  delete_occurrences old (old ++ rest) 0 = delete_occurrences old rest 0.
Proof.
  intros Hold. destruct old as [|c o]; [contradiction|].
  pose proof (prefix_app (String c o) rest) as Hp.
  rewrite append_cons in *. cbn [delete_occurrences]. rewrite Hp.
  cbn [String.length]. rewrite Nat.sub_1_r. cbn [Nat.pred].
  apply delete_skip.
Qed.

Lemma str_contains_longer (old s : string) :
  (String.length s < String.length old)%nat -> str_contains old s = false.
Proof.
  induction s as [|c s IH]; intros Hlen.
  - destruct old; [cbn [String.length] in Hlen; lia | reflexivity].
  - rewrite str_contains_cons. apply orb_false_iff. split.
    + destruct (String.prefix old (String c s)) eqn:Hp; [|reflexivity].
      apply prefix_length in Hp. lia.
    + apply IH. cbn [String.length] in Hlen. lia.
Qed.

Lemma length_append (a b : string) :
  String.length (a ++ b) = (String.length a + String.length b)%nat.
Proof.
  induction a as [|c a IH]; [reflexivity|].
  rewrite append_cons. cbn [String.length]. rewrite IH. reflexivity.
Qed.

(** X8.  The path under which the image is looked up.  When the marker
    [___Total_] does not occur in the [content] string, the string is used
    whole.  When it occurs, the string is what precedes its first
    occurrence, the marker, and a rest; what is used is the rest with the
    further occurrences of that prefix and marker deleted, which is the
    rest itself when it has no such occurrence. *)
Theorem image_path_after_marker (image_url : string) :
  let old := split_head "___Total_" image_url ++ "___Total_" in
  let image_url_new := str_replace_empty image_url old in
  (str_contains "___Total_" image_url = false -> image_url_new = image_url)
  /\ (str_contains "___Total_" image_url = true ->
      exists rest,
        image_url = old ++ rest
        /\ image_url_new = str_replace_empty rest old
        /\ (str_contains old rest = false -> image_url_new = rest)).
Proof.
  intros old image_url_new. split.
  - intros Habs. subst image_url_new old. unfold str_replace_empty.
    apply delete_absent. apply str_contains_longer.
    rewrite (split_head_absent _ _ Habs), length_append. cbn [String.length]. lia.
  - intros Hin. destruct (split_head_present _ _ Hin) as [rest Hrest].
    exists rest.
    assert (image_url = old ++ rest) as Hurl.
    { subst old. rewrite append_assoc. exact Hrest. }
    assert (image_url_new = str_replace_empty rest old) as Hnew.
    { subst image_url_new. unfold str_replace_empty.
      rewrite Hurl at 1. apply delete_first.
      subst old. destruct (split_head "___Total_" image_url); discriminate. }
    split; [exact Hurl|]. split; [exact Hnew|].
    intros Habs. rewrite Hnew. unfold str_replace_empty.
    apply delete_absent. exact Habs.
Qed.

(** ** A run of the first converter ([main]) *)






Lemma not_in_nil (idx : nat) : Dataturks.not_in idx [] = true.
Proof. reflexivity. Qed.






(** ** The feature record, continued *)

Section Encoding.

Context `{Runtime}.
Variable label_map_dict : gmap string Z.
Variable ignore_difficult_instances : bool.
Variables width height : Z.

(** A turn of the loop that ends without an exception on a retained object
    has read all its fields. *)
Lemma object_step_read (st st' : TfRecords.object_lists) (obj : json) :
  TfRecords.object_step label_map_dict ignore_difficult_instances width height
    st obj = Ok st' ->
  Voc.retained ignore_difficult_instances obj = true ->
  Encoder.read label_map_dict width height obj.
Proof.
  unfold TfRecords.object_step, Voc.retained, Voc.is_unspecified, Voc.is_difficult,
    Encoder.read.
  intros Hstep Hret.
  destruct (getitem obj "difficult") as [d|e] eqn:Ed; [|discriminate].
  run in Hstep. run in Hret.
  destruct (TfRecords.equals_str d "Unspecified"); [discriminate|].
  destruct (TfRecords.int_of d) as [z|e] eqn:Ez; [|discriminate].
  run in Hstep.
  destruct (ignore_difficult_instances && negb (z =? 0)%Z); [discriminate|].
  unfold Voc.obj_coord, Voc.obj_class, Voc.obj_name, Voc.obj_truncated, Voc.obj_pose.
  destruct (TfRecords.bndbox_coord obj "xmin" width) as [x0|e]; [|discriminate].
  destruct (TfRecords.bndbox_coord obj "ymin" height) as [y0|e]; [|discriminate].
  destruct (TfRecords.bndbox_coord obj "xmax" width) as [x1|e]; [|discriminate].
  destruct (TfRecords.bndbox_coord obj "ymax" height) as [y1|e]; [|discriminate].
  run in Hstep.
  destruct (getitem obj "name") as [[| | | |name| |]|e]; try discriminate.
  run in Hstep.
  destruct (label_map_dict !! name) as [class|]; [|discriminate].
  run in Hstep.
  destruct (getitem obj "truncated") as [t|e]; [|discriminate].
  run in Hstep. run.
  destruct (TfRecords.int_of t) as [tz|e]; [|discriminate].
  run in Hstep.
  destruct (getitem obj "pose") as [[| | | |pose| |]|e]; try discriminate.
  repeat split; reflexivity.
Qed.

Lemma objects_loop_read (objs : list json) (st st' : TfRecords.object_lists) :
  TfRecords.objects_loop label_map_dict ignore_difficult_instances width height
    objs st = Ok st' ->
  Forall (Encoder.read label_map_dict width height)
    (List.filter (Voc.retained ignore_difficult_instances) objs).
Proof.
  revert st. induction objs as [|obj objs IH]; intros st Hloop; [constructor|].
  cbn [TfRecords.objects_loop] in Hloop.
  apply bind_Ok_inv in Hloop. destruct Hloop as (st1 & Hstep & Hrest).
  cbn [List.filter].
  destruct (Voc.retained ignore_difficult_instances obj) eqn:Hret.
  - constructor; [exact (object_step_read _ _ _ Hstep Hret) | exact (IH _ Hrest)].
  - exact (IH _ Hrest).
Qed.

End Encoding.

(** The record is built from objects whose fields have all been read. *)
Lemma dict_to_tf_example_read `{Runtime} (fs : filesystem) (data : json)
    (image_data_directory : string) (label_map_dict : gmap string Z)
    (ignore_difficult_instances : bool) (ex : TfRecords.tf_example) :
  TfRecords.dict_to_tf_example fs data image_data_directory label_map_dict
    ignore_difficult_instances = Ok ex ->
  Forall (Encoder.read label_map_dict (TfRecords.image_width ex)
            (TfRecords.image_height ex))
    (List.filter (Voc.retained ignore_difficult_instances) (Voc.data_objects data)).
Proof.
  intros Hex. apply dict_to_tf_example_Ok in Hex.
  destruct Hex as (st & Hwalk & _).
  apply walk_objects_Ok in Hwalk.
  exact (objects_loop_read _ _ _ _ _ _ _ Hwalk).
Qed.

Lemma Forall2_map_both {A B C : Type} (R : B -> C -> Prop) (f : A -> B) (g : A -> C)
    (l : list A) :
  Forall (fun a => R (f a) (g a)) l -> Forall2 R (map f l) (map g l).
Proof. induction 1; constructor; assumption. Qed.


(** X12.  In the record [dict_to_tf_example] returns, the class ids are the
    values of the label map at the class texts, entry by entry. *)
Theorem class_ids_follow_the_label_map `{Runtime} (fs : filesystem) (data : json)
    (image_data_directory : string) (label_map_dict : gmap string Z)
    (ignore_difficult_instances : bool) (ex : TfRecords.tf_example) :
  TfRecords.dict_to_tf_example fs data image_data_directory label_map_dict
    ignore_difficult_instances = Ok ex ->
  Forall2 (fun name id => label_map_dict !! name = Some id)
    (TfRecords.image_object_class_text ex)
    (TfRecords.image_object_class_label ex).
Proof.
  intros Hex. pose proof (dict_to_tf_example_read _ _ _ _ _ _ Hex) as Hread.
  apply dict_to_tf_example_lists in Hex. cbv zeta in Hex.
  destruct Hex as (_ & _ & _ & _ & -> & -> & _).
  cbn [Voc.expected_lists TfRecords.classes_text TfRecords.classes].
  apply Forall2_map_both. eapply List.Forall_impl; [|exact Hread].
  intros obj (_ & Hclass & _). exact Hclass.
Qed.

(** The three objects, cats being 1 and dogs 2. *)
Lemma class_ids_follow_the_label_map_witness :
  exists ex : TfRecords.tf_example,
    @TfRecords.dict_to_tf_example Example.scan_runtime Example.scan_files
      (Example.parsed_annotation Example.three_objects) "images/Total"
      Example.cat_dog false = Ok ex
    /\ TfRecords.image_object_class_text ex = ["dog"; "cat"]
    /\ TfRecords.image_object_class_label ex = [2; 1]
    /\ Forall2 (fun name id => Example.cat_dog !! name = Some id)
         (TfRecords.image_object_class_text ex)
         (TfRecords.image_object_class_label ex).
Proof.
  destruct (@TfRecords.dict_to_tf_example Example.scan_runtime Example.scan_files
              (Example.parsed_annotation Example.three_objects) "images/Total"
              Example.cat_dog false) as [ex|e] eqn:Hex; [|vm_compute in Hex; discriminate].
  exists ex. split; [reflexivity|].
  pose proof (@class_ids_follow_the_label_map Example.scan_runtime _ _ _ _ _ _ Hex)
    as Hids.
  vm_compute in Hex. inversion Hex; subst ex. clear Hex.
  split; [reflexivity|]. split; [reflexivity | exact Hids].
Defined.




(** X14.  In the record [dict_to_tf_example] returns, every difficult flag
    is 0 or 1, and with [ignore_difficult_instances] every flag is 0. *)
Theorem difficult_flags_are_bits `{Runtime} (fs : filesystem) (data : json)
    (image_data_directory : string) (label_map_dict : gmap string Z)
    (ignore_difficult_instances : bool) (ex : TfRecords.tf_example) :
  TfRecords.dict_to_tf_example fs data image_data_directory label_map_dict
    ignore_difficult_instances = Ok ex ->
  Forall (fun flag => flag = 0 \/ flag = 1) (TfRecords.image_object_difficult ex)
  /\ (ignore_difficult_instances = true ->
      Forall (fun flag => flag = 0) (TfRecords.image_object_difficult ex)).
Proof.
  intros Hex. apply dict_to_tf_example_lists in Hex. cbv zeta in Hex.
  destruct Hex as (_ & _ & _ & _ & _ & _ & -> & _).
  cbn [Voc.expected_lists TfRecords.difficult_obj]. split.
  - apply Forall_map. apply List.Forall_forall. intros obj _.
    unfold Voc.obj_difficult. destruct (Voc.is_difficult obj); auto.
  - intros ->. apply Forall_map. apply List.Forall_forall. intros obj Hin.
    apply filter_In in Hin. destruct Hin as [_ Hret].
    unfold Voc.retained in Hret. apply andb_true_iff in Hret.
    destruct Hret as [_ Hret]. apply negb_true_iff in Hret. cbn [andb] in Hret.
    unfold Voc.obj_difficult. rewrite Hret. reflexivity.
Qed.

(** The three objects, difficult instances being ignored. *)
Lemma difficult_flags_are_bits_witness :
  exists ex : TfRecords.tf_example,
    @TfRecords.dict_to_tf_example Example.scan_runtime Example.scan_files
      (Example.parsed_annotation Example.three_objects) "images/Total"
      Example.cat_dog true = Ok ex
    /\ Forall (fun flag => flag = 0) (TfRecords.image_object_difficult ex).
Proof.
  destruct (@TfRecords.dict_to_tf_example Example.scan_runtime Example.scan_files
              (Example.parsed_annotation Example.three_objects) "images/Total"
              Example.cat_dog true) as [ex|e] eqn:Hex; [|vm_compute in Hex; discriminate].
  exists ex. split; [reflexivity|].
  apply (@difficult_flags_are_bits Example.scan_runtime _ _ _ _ _ _ Hex).
  reflexivity.
Defined.

(** X15.  The fields of the record other than the object lists.  A record is
    returned only for an image that is stored under the file name of the
    annotation in the image directory and that PIL opens as JPEG or PNG.
    Its file name and source id are that file name, its encoded image the
    bytes of the file, its key their SHA-256 digest, and its format tag
    "jpeg" (also for a PNG image); its width and height are the ones the
    annotation declares, whatever the size of the image. *)
Theorem record_header `{Runtime} (fs : filesystem) (data : json)
    (image_data_directory : string) (label_map_dict : gmap string Z)
    (ignore_difficult_instances : bool) (ex : TfRecords.tf_example) :
  TfRecords.dict_to_tf_example fs data image_data_directory label_map_dict
    ignore_difficult_instances = Ok ex ->
  exists (filename bytes : string) (img : image),
    getitem data "filename" = Ok (JStr filename)
    /\ contents fs !! path_join image_data_directory filename = Some bytes
    /\ image_open bytes = Some img
    /\ (format img = "JPEG" \/ format img = "PNG")
    /\ TfRecords.image_filename ex = filename
    /\ TfRecords.image_source_id ex = filename
    /\ TfRecords.image_encoded ex = bytes
    /\ TfRecords.image_key_sha256 ex = sha256_hexdigest bytes
    /\ TfRecords.image_format ex = "jpeg"
    /\ Encoder.declared_size data "width" = Ok (TfRecords.image_width ex)
    /\ Encoder.declared_size data "height" = Ok (TfRecords.image_height ex).
Proof.
  unfold TfRecords.dict_to_tf_example, Encoder.declared_size. intros Hex.
  destruct (getitem data "filename") as [[| | | |filename| |]|e];
    try discriminate.
  run in Hex. unfold fs_read in Hex.
  destruct (contents fs !! path_join image_data_directory filename)
    as [bytes|] eqn:Hfile; [|discriminate].
  run in Hex.
  destruct (image_open bytes) as [img|] eqn:Himg; [|discriminate].
  run in Hex.
  destruct (negb (String.eqb (format img) "JPEG")
            && negb (String.eqb (format img) "PNG")) eqn:Hformat; [discriminate|].
  destruct (getitem data "size") as [size_entry|e]; [|discriminate].
  run in Hex. run.
  destruct (getitem size_entry "width") as [w|e]; [|discriminate].
  run in Hex. run.
  destruct (TfRecords.int_of w) as [width|e]; [|discriminate].
  run in Hex.
  destruct (getitem size_entry "height") as [h|e]; [|discriminate].
  run in Hex. run.
  destruct (TfRecords.int_of h) as [height|e]; [|discriminate].
  run in Hex.
  apply bind_Ok_inv in Hex. destruct Hex as (st & _ & Hex).
  inversion Hex; subst. clear Hex.
  exists filename, bytes, img. cbn.
  repeat split; try reflexivity; try assumption.
  apply andb_false_iff in Hformat.
  destruct Hformat as [Hf|Hf]; apply negb_false_iff, String.eqb_eq in Hf; auto.
Qed.

(** A PNG image of 640 x 480 under an annotation that declares 100 x 200. *)
Lemma record_header_witness :
  exists ex : TfRecords.tf_example,
    @TfRecords.dict_to_tf_example Images.runtime Images.png_files
      (Example.parsed_annotation Example.three_objects) "images/Total"
      Example.cat_dog false = Ok ex
    /\ TfRecords.image_format ex = "jpeg"
    /\ TfRecords.image_encoded ex = Images.png_bytes
    /\ TfRecords.image_width ex = 100
    /\ TfRecords.image_height ex = 200.
Proof.
  destruct (@TfRecords.dict_to_tf_example Images.runtime Images.png_files
              (Example.parsed_annotation Example.three_objects) "images/Total"
              Example.cat_dog false) as [ex|e] eqn:Hex; [|vm_compute in Hex; discriminate].
  exists ex. split; [reflexivity|].
  destruct (@record_header Images.runtime _ _ _ _ _ _ Hex)
    as (filename & bytes & img & _ & Hfile & _ & _ & _ & _ & Henc & _ & Hfmt & Hw & Hh).
  split; [exact Hfmt|].
  vm_compute in Hex. inversion Hex; subst ex. clear Hex.
  repeat split; reflexivity.
Defined.

(** ** A run of the second converter ([main]) *)

Lemma tf_main_loop_prefix `{Runtime} (fs : filesystem) (files : list string)
    (annotations_dir image_data_dir : string) (label_map_dict : gmap string Z)
    (ignore_difficult_instances : bool)
    (acc written : list TfRecords.tf_example) (outcome : option exn) :
  TfRecords.main_loop fs files annotations_dir image_data_dir label_map_dict
    ignore_difficult_instances acc = (written, outcome) ->
  exists new : list TfRecords.tf_example,
    written = (acc ++ new)%list
    /\ Forall2
         (fun file ex =>
            TfRecords.main_step fs file annotations_dir image_data_dir
              label_map_dict ignore_difficult_instances = Ok ex)
         (firstn (List.length new) files) new
    /\ match outcome with
       | None => List.length new = List.length files
       | Some e =>
           exists file,
             nth_error files (List.length new) = Some file
             /\ TfRecords.main_step fs file annotations_dir image_data_dir
                  label_map_dict ignore_difficult_instances = Raise e
       end.
Proof.
  revert acc. induction files as [|file files IH]; intros acc Hloop.
  - cbn in Hloop. inversion Hloop; subst. exists []. rewrite app_nil_r.
    split; [reflexivity|]. split; [constructor | reflexivity].
  - cbn [TfRecords.main_loop] in Hloop.
    destruct (TfRecords.main_step fs file annotations_dir image_data_dir
                label_map_dict ignore_difficult_instances) as [ex|e] eqn:Hstep.
    + apply IH in Hloop. destruct Hloop as (new & -> & Hnew & Hout).
      exists (ex :: new). rewrite <- app_assoc. split; [reflexivity|].
      cbn [List.length firstn nth_error]. split.
      * constructor; assumption.
      * destruct outcome; [exact Hout | lia].
    + inversion Hloop; subst. exists []. rewrite app_nil_r.
      split; [reflexivity|]. split; [constructor|].
      exists file. split; [reflexivity | exact Hstep].
Qed.

(** X16.  What the record writer has received when [main] ends: one record
    per annotation file, in the order of the listing, up to the first file
    whose processing raises; the run ends with that exception, the files
    after it not being processed, or without one when every file has given
    its record. *)
Theorem main_writes_a_prefix `{Runtime} (fs : filesystem) (files_list : list string)
    (annotations_dir image_data_dir : string) (label_map_dict : gmap string Z)
    (ignore_difficult_instances : bool)
    (written : list TfRecords.tf_example) (outcome : option exn) :
  TfRecords.main fs files_list annotations_dir image_data_dir label_map_dict
    ignore_difficult_instances = (written, outcome) ->
  Forall2
    (fun file ex =>
       TfRecords.main_step fs file annotations_dir image_data_dir
         label_map_dict ignore_difficult_instances = Ok ex)
    (firstn (List.length written) files_list) written
  /\ match outcome with
     | None => List.length written = List.length files_list
     | Some e =>
         exists file,
           nth_error files_list (List.length written) = Some file
           /\ TfRecords.main_step fs file annotations_dir image_data_dir
                label_map_dict ignore_difficult_instances = Raise e
     end.
Proof.
  unfold TfRecords.main. intros Hmain.
  apply tf_main_loop_prefix in Hmain.
  destruct Hmain as (new & -> & Hnew & Hout). cbn [app].
  split; [exact Hnew | exact Hout].
Qed.

(** A listing of the document, the file that is not XML, and the document
    again: one record is written and the run ends with the syntax error. *)
Lemma main_writes_a_prefix_witness :
  exists ex : TfRecords.tf_example,
    @TfRecords.main Example.pipeline_runtime Listing.files
      ["scan1.jpg.xml"; "notes.txt"; "scan1.jpg.xml"]
      "voc/train" "images/Total" Example.cat_dog false
    = ([ex], Some XMLSyntaxError)
    /\ @TfRecords.main_step Example.pipeline_runtime Listing.files "scan1.jpg.xml"
         "voc/train" "images/Total" Example.cat_dog false = Ok ex
    /\ @TfRecords.main_step Example.pipeline_runtime Listing.files "notes.txt"
         "voc/train" "images/Total" Example.cat_dog false = Raise XMLSyntaxError.
Proof.
  destruct (@TfRecords.main Example.pipeline_runtime Listing.files
              ["scan1.jpg.xml"; "notes.txt"; "scan1.jpg.xml"]
              "voc/train" "images/Total" Example.cat_dog false)
    as [written outcome] eqn:Hmain.
  pose proof (@main_writes_a_prefix Example.pipeline_runtime _ _ _ _ _ _ _ _ Hmain)
    as [Hrecords Hout].
  vm_compute in Hmain. inversion Hmain; subst written outcome. clear Hmain.
  eexists. split; [reflexivity|].
  cbn [List.length firstn] in Hrecords.
  inversion Hrecords as [|file ex files exs Hstep _]; subst.
  split; [exact Hstep|].
  destruct Hout as (file' & Hnth & Hraise). cbn in Hnth.
  inversion Hnth; subst. exact Hraise.
Defined.

(** X17.  An image that PIL opens in a format other than JPEG and PNG makes
    [dict_to_tf_example] raise its [ValueError], whatever the annotation
    holds besides the file name; a run of [main] over a listing with the
    annotation of such an image ends with an exception, raised at that file
    or at one before it, and writes no record for it or for a later file. *)
Theorem other_formats_are_refused `{Runtime} (fs : filesystem) (data : json)
    (image_data_directory : string) (label_map_dict : gmap string Z)
    (ignore_difficult_instances : bool) (filename bytes : string) (img : image) :
  getitem data "filename" = Ok (JStr filename) ->
  contents fs !! path_join image_data_directory filename = Some bytes ->
  image_open bytes = Some img ->
  format img <> "JPEG" ->
  format img <> "PNG" ->
  TfRecords.dict_to_tf_example fs data image_data_directory label_map_dict
    ignore_difficult_instances
  = Raise (ValueError "Image format not JPEG neither PNG")
  /\ (forall pre file post annotations_dir xml_str xml,
        fs_read fs (path_join annotations_dir file) = Ok xml_str ->
        etree_fromstring xml_str = Some xml ->
        Voc.voc_data xml = Ok data ->
        exists e written,
          TfRecords.main fs (pre ++ file :: post) annotations_dir
            image_data_directory label_map_dict ignore_difficult_instances
          = (written, Some e)
          /\ (List.length written <= List.length pre)%nat).
Proof.
  intros Hname Hfile Himg Hjpeg Hpng.
  assert (TfRecords.dict_to_tf_example fs data image_data_directory label_map_dict
            ignore_difficult_instances
          = Raise (ValueError "Image format not JPEG neither PNG")) as Hraise.
  { unfold TfRecords.dict_to_tf_example. rewrite Hname. run.
    unfold fs_read. rewrite Hfile. run. rewrite Himg. run.
    apply String.eqb_neq in Hjpeg, Hpng. rewrite Hjpeg, Hpng. reflexivity. }
  split; [exact Hraise|].
  intros pre file post annotations_dir xml_str xml Hread Hparse Hdata.
  destruct (main_loop_stops fs pre post file annotations_dir image_data_directory
              label_map_dict ignore_difficult_instances xml_str xml data _ []
              Hread Hparse Hdata Hraise) as (e' & written & E & L).
  exists e', written. split; [exact E | exact L].
Qed.

(** The annotation of the three objects over a GIF image. *)
Lemma other_formats_are_refused_witness :
  @TfRecords.dict_to_tf_example Images.runtime Images.gif_files
    (Example.parsed_annotation Example.three_objects) "images/Total"
    Example.cat_dog false
  = Raise (ValueError "Image format not JPEG neither PNG").
Proof.
  apply (@other_formats_are_refused Images.runtime Images.gif_files
           (Example.parsed_annotation Example.three_objects) "images/Total"
           Example.cat_dog false "scan1.jpg" Images.gif_bytes
           (Image "GIF" (100, 200))).
  - reflexivity.
  - reflexivity.
  - reflexivity.
  - discriminate.
  - discriminate.
Defined.
